(** * Model evaluation pipeline ([src/models/model_evaluation.py])

    A shallow embedding of the evaluation stage: loading the parameters, the
    pickled classifier and the test table, computing the four metrics,
    recording them in a dvclive session, writing [reports/metrics.json], and
    the top-level [main] that swallows every failure.

    Python code that threads files, log handlers and the tracking session
    through every call is written in a state-and-exception monad [M] over a
    [world]; [try ... except C: ...] is [try_except] with a list of handlers
    tried in source order. *)

From Stdlib Require Import QArith DecimalString.
From stdpp Require Import gmap strings list.

Local Open Scope string_scope.
Local Open Scope list_scope.

(** ** Characters that cannot be typed inside a literal *)

Definition nl : string := String (Ascii.ascii_of_nat 10) EmptyString.
Definition dquote : string := String (Ascii.ascii_of_nat 34) EmptyString.

(** [str(n)] for a non-negative integer. *)
Definition str_nat (n : nat) : string := NilZero.string_of_uint (Nat.to_uint n).

(** Python's [needle in haystack] on strings. *)
Fixpoint contains (needle haystack : string) : bool :=
  String.prefix needle haystack ||
  match haystack with
  | EmptyString => false
  | String _ rest => contains needle rest
  end.

(** [repr(s)] of a [str]: single quotes, or double quotes when [s] has a
    single quote and no double quote; backslash, the enclosing quote and
    control characters are escaped. Bytes above 127 stand for printable
    text and are kept. *)
Definition hex_digit (n : nat) : string :=
  String.substring n 1 "0123456789abcdef".

Definition repr_char (quote c : Ascii.ascii) : string :=
  let n := Ascii.nat_of_ascii c in
  if Nat.eqb n 92 then "\\"
  else if Ascii.eqb c quote then String (Ascii.ascii_of_nat 92) (String c EmptyString)
  else if Nat.eqb n 10 then "\n"
  else if Nat.eqb n 13 then "\r"
  else if Nat.eqb n 9 then "\t"
  else if Nat.ltb n 32 || Nat.eqb n 127
       then "\x" +:+ hex_digit (n / 16) +:+ hex_digit (n mod 16)
  else String c EmptyString.

Definition str_repr (s : string) : string :=
  let single := Ascii.ascii_of_nat 39 in
  let double := Ascii.ascii_of_nat 34 in
  let quote := if contains (String single EmptyString) s
                  && negb (contains (String double EmptyString) s)
               then double else single in
  String quote
    (String.concat EmptyString (List.map (repr_char quote) (String.list_ascii_of_string s))
     +:+ String quote EmptyString).

(** ** Exceptions

    Only the classes that the module names in an [except] clause, or that the
    libraries it calls raise, are listed; [Custom name bases] is any further
    class, declared with the classes of [bases] as its bases, or deriving
    from [Exception] alone when
    [bases] is empty.  Every class here descends from [Exception]: the model
    covers failures, not interpreter signals such as [KeyboardInterrupt]. *)

#[local] Set Warnings "-register-all".
Inductive exc_class : Type :=
  | Exception
  | OSError                 (* IOError is an alias of OSError *)
  | FileNotFoundError
  | LookupError
  | KeyError
  | IndexError
  | AttributeError
  | ValueError
  | TypeError
  | YAMLError               (* yaml.YAMLError *)
  | PickleError
  | UnpicklingError         (* pickle.UnpicklingError *)
  | EmptyDataError          (* pd.errors.EmptyDataError *)
  | ParserError             (* pd.errors.ParserError *)
  | Custom (name : string) (bases : list exc_class).

Definition class_tag (c : exc_class) : nat :=
  match c with
  | Exception => 0 | OSError => 1 | FileNotFoundError => 2 | LookupError => 3
  | KeyError => 4 | IndexError => 5 | AttributeError => 6 | ValueError => 7
  | TypeError => 8 | YAMLError => 9 | PickleError => 10 | UnpicklingError => 11
  | EmptyDataError => 12 | ParserError => 13 | Custom _ _ => 14
  end.

(** Whether two classes are the same class. *)
Fixpoint exc_class_eqb (c d : exc_class) {struct c} : bool :=
  match c, d with
  | Custom n bs, Custom m ds =>
      String.eqb n m &&
      (fix all2 (l1 l2 : list exc_class) {struct l1} : bool :=
         match l1, l2 with
         | [], [] => true
         | x :: l1', y :: l2' => exc_class_eqb x y && all2 l1' l2'
         | _, _ => false
         end) bs ds
  | Custom _ _, _ => false
  | _, Custom _ _ => false
  | _, _ => Nat.eqb (class_tag c) (class_tag d)
  end.

(** The class followed by every class it derives from, directly or not.
    Only membership is used, so the order of Python's method resolution
    order is not reproduced. *)
Fixpoint mro (c : exc_class) : list exc_class :=
  c :: match c with
       | Exception => []
       | OSError | LookupError | AttributeError | ValueError | TypeError
       | YAMLError | PickleError => [Exception]
       | FileNotFoundError => [OSError; Exception]
       | KeyError | IndexError => [LookupError; Exception]
       | UnpicklingError => [PickleError; Exception]
       | EmptyDataError | ParserError => [ValueError; Exception]
       | Custom _ bases => flat_map mro bases ++ [Exception]
       end.

Definition issubclass (c d : exc_class) : bool :=
  existsb (fun x => exc_class_eqb x d) (mro c).

(** An exception instance: its class and [str(e)]. *)
Record exn : Type := mkExn { exc_type : exc_class; str : string }.

Definition isinstance (e : exn) (c : exc_class) : bool := issubclass (exc_type e) c.

(** ** Values *)

(** A Python float: a finite value, kept exact, or [nan]. *)
Inductive pyfloat : Type :=
  | Fl (q : Q)
  | NaN.

(** The Python values that [yaml.safe_load] can return and [json.dump] can be
    handed.  Mappings keep their insertion order; [PObject ty] is any object
    of a type [ty] outside the basic ones. *)
Inductive pyval : Type :=
  | PNone
  | PBool (b : bool)
  | PInt (z : Z)
  | PFloat (x : pyfloat)
  | PStr (s : string)
  | PList (items : list pyval)
  | PDict (entries : list (string * pyval))
  | PObject (ty : string).

Definition type_name (v : pyval) : string :=
  match v with
  | PNone => "NoneType"
  | PBool _ => "bool"
  | PInt _ => "int"
  | PFloat _ => "float"
  | PStr _ => "str"
  | PList _ => "list"
  | PDict _ => "dict"
  | PObject ty => ty
  end.

(** [pd.DataFrame] of integer cells (a bag-of-words count table followed by a
    label column): [ncols] columns and one list per row. *)
Record DataFrame : Type := mkDataFrame { ncols : nat; rows : list (list Z) }.

Definition nrows (df : DataFrame) : nat := length (rows df).

(** The two-dimensional float array returned by [predict_proba]. *)
Record ndarray2 : Type := mkArray2 { shape1 : nat; arows : list (list Q) }.

(** ** Outcomes and the monad *)

Inductive outcome (A : Type) : Type :=
  | Ok (a : A)
  | Raise (e : exn).
Arguments Ok {A} a.
Arguments Raise {A} e.

(** What the logging handlers have received. *)
Inductive level : Type := DEBUG | INFO | WARNING | ERROR | CRITICAL.

Definition levelno (l : level) : nat :=
  match l with
  | DEBUG => 10 | INFO => 20 | WARNING => 30 | ERROR => 40 | CRITICAL => 50
  end.

Record log_record : Type := mkRecord { rec_name : string; rec_level : level; rec_msg : string }.

(** Calls received by the experiment tracker. *)
Inductive live_event : Type :=
  | LiveOpen (save_dvc_exp : bool)
  | LogMetric (name : string) (val : pyfloat)
  | LogParam (name : string) (val : pyval)
  | LiveEnd.

(** The state the module acts on, one field for each way it reaches it.
    [fs] holds the files the module itself opens by path, with what it finds
    in them: the model artifact, the test table, [params.yaml], the metrics
    file. The text of [errors.log] is not looked up in [fs]: the
    [FileHandler] keeps that file open from import time, and what it has
    written is [errors_log]; what the console stream has shown is [console].
    Whatever dvclive stores, in its own directory or elsewhere, is not in
    [fs] either: [tracker] is the sequence of calls it has received. *)
Record world : Type := mkWorld {
  fs : gmap string string;
  console : list log_record;
  errors_log : list log_record;
  tracker : list live_event
}.

Definition M (A : Type) : Type := world -> outcome A * world.

Definition ret {A} (a : A) : M A := fun w => (Ok a, w).
Definition raise_ {A} (e : exn) : M A := fun w => (Raise e, w).
Definition bind {A B} (m : M A) (k : A -> M B) : M B :=
  fun w => match m w with
           | (Ok a, w') => k a w'
           | (Raise e, w') => (Raise e, w')
           end.
Definition lift {A} (o : outcome A) : M A := fun w => (o, w).

Declare Scope py_scope.
Delimit Scope py_scope with py.
Notation "x <- m ;; k" := (bind m (fun x => k))
  (at level 100, m at next level, right associativity) : py_scope.
Notation "m ;; k" := (bind m (fun _ => k))
  (at level 100, right associativity) : py_scope.
Local Open Scope py_scope.

(** [try: body  except C1: h1  except C2: h2 ...]: the first clause whose
    class the exception is an instance of runs; with none, it propagates. *)
Fixpoint dispatch {A} (e : exn) (handlers : list (exc_class * (exn -> M A))) : M A :=
  match handlers with
  | [] => raise_ e
  | (c, h) :: hs => if isinstance e c then h e else dispatch e hs
  end.

Definition try_except {A} (body : M A) (handlers : list (exc_class * (exn -> M A))) : M A :=
  fun w => match body w with
           | (Ok a, w') => (Ok a, w')
           | (Raise e, w') => dispatch e handlers w'
           end.

(** [for x in xs: body x] *)
Fixpoint for_each {A} (xs : list A) (body : A -> M unit) : M unit :=
  match xs with
  | [] => ret tt
  | x :: xs' => body x ;; for_each xs' body
  end.

(** ** The module-level logger (lines 13-27)

    Logger ['Model Evaluation'] at DEBUG with a console handler at DEBUG and a
    file handler on [errors.log] at WARNING. *)

Definition logger_name : string := "Model Evaluation".
Definition logger_level : level := DEBUG.
Definition console_handler_level : level := DEBUG.
Definition file_handler_level : level := WARNING.

Definition emit (lvl : level) (msg : string) : M unit := fun w =>
  let r := mkRecord logger_name lvl msg in
  if Nat.ltb (levelno lvl) (levelno logger_level) then (Ok tt, w) else
  (Ok tt,
   mkWorld (fs w)
     (if Nat.ltb (levelno lvl) (levelno console_handler_level) then console w else console w ++ [r])
     (if Nat.ltb (levelno lvl) (levelno file_handler_level) then errors_log w else errors_log w ++ [r])
     (tracker w)).

Definition logger_debug (msg : string) : M unit := emit DEBUG msg.
Definition logger_error (msg : string) : M unit := emit ERROR msg.

(** ** What the module imports

    The classifier object and the library calls are not code of this module.
    A classifier is given by the attributes the module looks up on it; the
    parsers, the tracker and the operating system are the fields of
    [externals], over which every statement below is quantified. *)

Record model_obj : Type := mkModel {
  cls_name : string;
  predict : option (DataFrame -> outcome (list Z));
  predict_proba : option (DataFrame -> outcome ndarray2)
}.

Record externals : Type := mkExternals {
  yaml_safe_load : string -> outcome pyval;        (* yaml.safe_load on the file's text *)
  pickle_load : string -> outcome model_obj;       (* pickle.load on the file's bytes *)
  pd_read_csv : string -> outcome DataFrame;       (* pd.read_csv on the file's text *)
  open_w_error : string -> option exn;             (* what open(path, 'w') raises, if anything *)
  float_repr : pyfloat -> string;                  (* float.__repr__ *)
  encode_basestring_ascii : string -> string;      (* json's quoting of a str *)
  Live_init_error : option exn;                    (* what Live(...) raises, if anything *)
  log_metric_error : string -> pyfloat -> option exn;
  log_param_error : string -> pyval -> option exn
}.

(** *** sklearn.metrics on integer label vectors

    The four scores as sklearn documents them, in exact arithmetic:
    [precision_score] and [recall_score] with their defaults
    [average='binary'], [pos_label=1], [zero_division='warn'];
    [roc_auc_score] as the area under the ROC curve of a binary target,
    that is the share of (positive, negative) pairs that the scores rank in
    the right order, ties counting one half. Empty label vectors are
    refused with a [ValueError]; a target with a single class makes
    [roc_auc_score] warn and return [nan]. *)
Module sklearn.

Definition value_error (msg : string) : exn := mkExn ValueError msg.

Definition count {A} (f : A -> bool) (l : list A) : nat := length (List.filter f l).

Definition ratio (num den : nat) : Q := Z.of_nat num # Pos.of_nat den.

Definition check_consistent_length {A} (a b : nat) (k : outcome A) : outcome A :=
  if Nat.eqb a b then k
  else Raise (value_error
         ("Found input variables with inconsistent numbers of samples: ["
            +:+ str_nat a +:+ ", " +:+ str_nat b +:+ "]")).

Definition unique (l : list Z) : list Z := nodup Z.eq_dec l.

Definition no_samples : exn :=
  value_error "Found array with 0 sample(s) (shape=(0,)) while a minimum of 1 is required.".

Definition accuracy_score (y_true y_pred : list Z) : outcome pyfloat :=
  check_consistent_length (length y_true) (length y_pred)
    (match length y_true with
     | O => Raise no_samples
     | S _ => Ok (Fl (ratio (count (fun '(t, p) => Z.eqb t p) (combine y_true y_pred))
                            (length y_true)))
     end).

(** The checks shared by [precision_score] and [recall_score]. *)
Definition check_binary {A} (y_true y_pred : list Z) (k : outcome A) : outcome A :=
  check_consistent_length (length y_true) (length y_pred)
    (let present := unique (y_true ++ y_pred) in
     if Nat.eqb (length y_true) 0 then Raise no_samples
     else if Nat.ltb 2 (length present) then
       Raise (value_error "Target is multiclass but average='binary'. Please choose another average setting, one of [None, 'micro', 'macro', 'weighted'].")
     else if negb (existsb (Z.eqb 1) present) && Nat.leb 2 (length present) then
       Raise (value_error "pos_label=1 is not a valid label.")
     else k).

Definition true_positives (y_true y_pred : list Z) : nat :=
  count (fun '(t, p) => Z.eqb t 1 && Z.eqb p 1) (combine y_true y_pred).

Definition precision_score (y_true y_pred : list Z) : outcome pyfloat :=
  check_binary y_true y_pred
    (match count (Z.eqb 1) y_pred with
     | O => Ok (Fl 0)
     | S _ as predicted => Ok (Fl (ratio (true_positives y_true y_pred) predicted))
     end).

Definition recall_score (y_true y_pred : list Z) : outcome pyfloat :=
  check_binary y_true y_pred
    (match count (Z.eqb 1) y_true with
     | O => Ok (Fl 0)
     | S _ as actual => Ok (Fl (ratio (true_positives y_true y_pred) actual))
     end).

Definition Qltb (a b : Q) : bool := negb (Qle_bool b a).

Definition scores_of (keep : Z -> bool) (y_true : list Z) (y_score : list Q) : list Q :=
  List.map snd (List.filter (fun '(t, _) => keep t) (combine y_true y_score)).

Definition roc_auc_score (y_true : list Z) (y_score : list Q) : outcome pyfloat :=
  match unique y_true with
  | [a; b] =>
      check_consistent_length (length y_true) (length y_score)
        (let pos := Z.max a b in
         let pairs := list_prod (scores_of (Z.eqb pos) y_true y_score)
                                (scores_of (fun t => negb (Z.eqb pos t)) y_true y_score) in
         let wins := count (fun '(p, n) => Qltb n p) pairs in
         let ties := count (fun '(p, n) => Qeq_bool p n) pairs in
         Ok (Fl (ratio (2 * wins + ties) (2 * length pairs))))
  | [] => Raise no_samples
  | [_] => Ok NaN   (* UndefinedMetricWarning: only one class is present in y_true *)
  | _ => Raise (value_error "multi_class must be in ('ovo', 'ovr')")
  end.

End sklearn.

(** *** json.dump(obj, fp, indent=4)

    The text the encoder has produced when it finishes, or when it meets a
    value it cannot serialise ([Some] error): [json.dump] writes the chunks
    to the file as they are produced. *)
Module json.

Definition emitted : Type := (string * option exn)%type.

Definition then_ (a b : emitted) : emitted :=
  match a with
  | (s, Some e) => (s, Some e)
  | (s, None) => (s +:+ fst b, snd b)
  end.

Definition text (s : string) : emitted := (s, None).

Fixpoint spaces (n : nat) : string :=
  match n with
  | O => EmptyString
  | S n' => " " +:+ spaces n'
  end.

Definition newline_indent (indent level : nat) : string := nl +:+ spaces (indent * level).

Definition int_repr (z : Z) : string := NilZero.string_of_int (Z.to_int z).

Definition not_serializable (ty : string) : exn :=
  mkExn TypeError ("Object of type " +:+ ty +:+ " is not JSON serializable").

Section Encoder.
Variable ext : externals.
Variable indent : nat.

Fixpoint iterencode (o : pyval) (level : nat) {struct o} : emitted :=
  match o with
  | PStr s => text (encode_basestring_ascii ext s)
  | PNone => text "null"
  | PBool true => text "true"
  | PBool false => text "false"
  | PInt z => text (int_repr z)
  | PFloat x => text (float_repr ext x)
  | PList [] => text "[]"
  | PList items =>
      let fix elements (vs : list pyval) (first : bool) : emitted :=
        match vs with
        | [] => text EmptyString
        | v :: vs' =>
            then_ (text (if first then EmptyString
                         else "," +:+ newline_indent indent (S level)))
              (then_ (iterencode v (S level)) (elements vs' false))
        end in
      then_ (text ("[" +:+ newline_indent indent (S level)))
        (then_ (elements items true)
           (text (newline_indent indent level +:+ "]")))
  | PDict [] => text "{}"
  | PDict entries =>
      let fix members (kvs : list (string * pyval)) (first : bool) : emitted :=
        match kvs with
        | [] => text EmptyString
        | (k, v) :: kvs' =>
            then_ (text ((if first then EmptyString
                          else "," +:+ newline_indent indent (S level))
                         +:+ encode_basestring_ascii ext k +:+ ": "))
              (then_ (iterencode v (S level)) (members kvs' false))
        end in
      then_ (text ("{" +:+ newline_indent indent (S level)))
        (then_ (members entries true)
           (text (newline_indent indent level +:+ "}")))
  | PObject ty => (EmptyString, Some (not_serializable ty))
  end.
End Encoder.

End json.

(** ** The module's functions *)

Section Pipeline.

Variable ext : externals.

(** *** Built-ins the functions call *)

Definition no_such_file (path : string) : exn :=
  mkExn FileNotFoundError ("[Errno 2] No such file or directory: " +:+ str_repr path).

(** [open(path, 'r')] / [open(path, 'rb')] followed by reading the file.
    [fs] has the paths that can be opened and read; any other path is taken
    as naming no file, which is the one failure of [open] modelled here. *)
Definition open_read (path : string) : M string := fun w =>
  match fs w !! path with
  | Some content => (Ok content, w)
  | None => (Raise (no_such_file path), w)
  end.

(** [open(path, 'w')]: the file is created or truncated. *)
Definition open_write (path : string) : M unit := fun w =>
  match open_w_error ext path with
  | Some e => (Raise e, w)
  | None => (Ok tt, mkWorld (<[path := EmptyString]> (fs w)) (console w) (errors_log w) (tracker w))
  end.

(** [file.write(s)] on the file opened at [path]. *)
Definition file_write (path s : string) : M unit := fun w =>
  (Ok tt, mkWorld (<[path := default EmptyString (fs w !! path) +:+ s]> (fs w))
                  (console w) (errors_log w) (tracker w)).

(** [json.dump(obj, file, indent=4)] on the file opened at [path]. *)
Definition json_dump (obj : pyval) (path : string) : M unit :=
  let out := json.iterencode ext 4 obj 0 in
  file_write path (fst out) ;;
  match snd out with
  | Some e => raise_ e
  | None => ret tt
  end.

Definition os_path_join (a b : string) : string :=
  match a with
  | EmptyString => b
  | _ => if String.prefix "/" b then b
         else if String.eqb (String.substring (String.length a - 1) 1 a) "/" then a +:+ b
         else a +:+ "/" +:+ b
  end.

Definition no_attribute (ty attr : string) : exn :=
  mkExn AttributeError ("'" +:+ ty +:+ "' object has no attribute '" +:+ attr +:+ "'").

(** [clf.predict(X)] and [clf.predict_proba(X)]: attribute lookup, then the call. *)
Definition call_predict (clf : model_obj) (X : DataFrame) : M (list Z) :=
  match predict clf with
  | None => raise_ (no_attribute (cls_name clf) "predict")
  | Some f => lift (f X)
  end.

Definition call_predict_proba (clf : model_obj) (X : DataFrame) : M ndarray2 :=
  match predict_proba clf with
  | None => raise_ (no_attribute (cls_name clf) "predict_proba")
  | Some f => lift (f X)
  end.

(** [P[:, j]] *)
Definition column (P : ndarray2) (j : nat) : outcome (list Q) :=
  if Nat.ltb j (shape1 P) then Ok (List.map (fun r => nth j r 0%Q) (arows P))
  else Raise (mkExn IndexError
         ("index " +:+ str_nat j +:+ " is out of bounds for axis 1 with size "
            +:+ str_nat (shape1 P))).

(** [v.items()] *)
Definition items (v : pyval) : M (list (string * pyval)) :=
  match v with
  | PDict entries => ret entries
  | _ => raise_ (no_attribute (type_name v) "items")
  end.

(** [df.iloc[:, :-1]] and [df.iloc[:, -1]] *)
Definition iloc_all_but_last (df : DataFrame) : DataFrame :=
  mkDataFrame (ncols df - 1) (List.map (@removelast Z) (rows df)).

Definition iloc_last (df : DataFrame) : M (list Z) :=
  match ncols df with
  | O => raise_ (mkExn IndexError "single positional indexer is out-of-bounds")
  | S _ => ret (List.map (fun r => List.last r 0%Z) (rows df))
  end.

(** *** dvclive.Live as a context manager *)

Definition Live_enter (save_dvc_exp : bool) : M unit := fun w =>
  match Live_init_error ext with
  | Some e => (Raise e, w)
  | None => (Ok tt, mkWorld (fs w) (console w) (errors_log w)
                            (tracker w ++ [LiveOpen save_dvc_exp]))
  end.

Definition Live_exit : M unit := fun w =>
  (Ok tt, mkWorld (fs w) (console w) (errors_log w) (tracker w ++ [LiveEnd])).

(** [with Live(save_dvc_exp=...) as live: body]: [__exit__] runs on the
    way out whether or not [body] raised, and does not suppress. *)
Definition with_Live {A} (save_dvc_exp : bool) (body : M A) : M A := fun w =>
  match Live_enter save_dvc_exp w with
  | (Raise e, w1) => (Raise e, w1)
  | (Ok _, w1) =>
      match body w1 with
      | (r, w2) => (r, snd (Live_exit w2))
      end
  end.

Definition live_log_metric (name : string) (val : pyfloat) : M unit := fun w =>
  match log_metric_error ext name val with
  | Some e => (Raise e, w)
  | None => (Ok tt, mkWorld (fs w) (console w) (errors_log w)
                            (tracker w ++ [LogMetric name val]))
  end.

Definition live_log_param (name : string) (val : pyval) : M unit := fun w =>
  match log_param_error ext name val with
  | Some e => (Raise e, w)
  | None => (Ok tt, mkWorld (fs w) (console w) (errors_log w)
                            (tracker w ++ [LogParam name val]))
  end.

(** *** load_params (lines 29-45) *)
Definition load_params (url : string) : M pyval :=
  try_except
    (file <- open_read url ;;
     params <- lift (yaml_safe_load ext file) ;;
     ret params)
    [ (FileNotFoundError, fun e =>
         logger_error ("Error: The file " +:+ url +:+ " was not found.") ;; raise_ e);
      (YAMLError, fun e =>
         logger_error ("Error parsing YAML file: " +:+ str e) ;; raise_ e);
      (KeyError, fun e =>
         logger_error "Error: 'model_building', 'n_estimators', or 'learning_rate' key not found in params." ;;
         raise_ e);
      (Exception, fun e =>
         logger_error ("An unexpected error occurred while loading parameters: " +:+ str e) ;;
         raise_ e) ].

(** *** load_model (lines 47-60) *)
Definition load_model (url : string) : M model_obj :=
  try_except
    (file <- open_read url ;;
     clf <- lift (pickle_load ext file) ;;
     ret clf)
    [ (FileNotFoundError, fun e =>
         logger_error ("Error: The file " +:+ url +:+ " was not found.") ;; raise_ e);
      (UnpicklingError, fun e =>
         logger_error "Error: The file could not be unpickled. It may not be a valid pickle file." ;;
         raise_ e);
      (Exception, fun e =>
         logger_error ("An unexpected error occurred while loading the model: " +:+ str e) ;;
         raise_ e) ].

(** *** load_data (lines 62-77) *)
Definition load_data (datapath : string) : M DataFrame :=
  try_except
    (file <- open_read (os_path_join datapath "test_bow.csv") ;;
     test_data <- lift (pd_read_csv ext file) ;;
     ret test_data)
    [ (FileNotFoundError, fun e =>
         logger_error ("Error: File not found in path " +:+ datapath +:+ ". Details: " +:+ str e) ;;
         raise_ e);
      (EmptyDataError, fun e =>
         logger_error "Error: The CSV file is empty." ;; raise_ e);
      (ParserError, fun e =>
         logger_error "Error: Error parsing the CSV file." ;; raise_ e);
      (Exception, fun e =>
         logger_error ("An unexpected error occurred while loading data: " +:+ str e) ;;
         raise_ e) ].

(** *** evaluate_model (lines 79-113) *)

(** The statements inside [evaluate_model]'s [try] (lines 81-104). *)
Definition evaluate_model_body (clf : model_obj) (X_test : DataFrame) (Y_test : list Z)
  : M (list (string * pyval)) :=
  Y_pred <- call_predict clf X_test ;;
  Y_pred_proba <- (P <- call_predict_proba clf X_test ;; lift (column P 1)) ;;
  params <- load_params "params.yaml" ;;
  accuracy <- lift (sklearn.accuracy_score Y_test Y_pred) ;;
  precision <- lift (sklearn.precision_score Y_test Y_pred) ;;
  recall <- lift (sklearn.recall_score Y_test Y_pred) ;;
  auc <- lift (sklearn.roc_auc_score Y_test Y_pred_proba) ;;
  with_Live true
    (live_log_metric "accuracy" accuracy ;;
     live_log_metric "precision" precision ;;
     live_log_metric "recall" recall ;;
     live_log_metric "roc -auc score" auc ;;
     sections <- items params ;;
     for_each sections (fun '(param, value) =>
       entries <- items value ;;
       for_each entries (fun '(key, val) =>
         live_log_param (param +:+ "_" +:+ key) val))) ;;
  let metrics_dict :=
    [ ("accuracy", PFloat accuracy);
      ("precision", PFloat precision);
      ("recall", PFloat recall);
      ("auc", PFloat auc) ] in
  ret metrics_dict.

Definition evaluate_model (clf : model_obj) (X_test : DataFrame) (Y_test : list Z)
  : M (list (string * pyval)) :=
  try_except (evaluate_model_body clf X_test Y_test)
    [ (AttributeError, fun e =>
         logger_error ("Error: Model does not have the required methods. Details: " +:+ str e) ;;
         raise_ e);
      (ValueError, fun e =>
         logger_error ("Error: Value error in predictions or metrics calculation. Details: " +:+ str e) ;;
         raise_ e);
      (Exception, fun e =>
         logger_error ("An unexpected error occurred while evaluating the model: " +:+ str e) ;;
         raise_ e) ].

(** *** save_metrics_dict (lines 115-127) *)
Definition save_metrics_dict (metrics : list (string * pyval)) (file_path : string) : M unit :=
  try_except
    (open_write file_path ;;
     json_dump (PDict metrics) file_path)
    [ (OSError, fun e =>
         logger_error ("Error: An I/O error occurred while saving the metrics: " +:+ str e) ;;
         raise_ e);
      (TypeError, fun e =>
         logger_error ("Error: Type error in metrics dictionary. Details: " +:+ str e) ;;
         raise_ e);
      (Exception, fun e =>
         logger_error ("An unexpected error occurred while saving metrics: " +:+ str e) ;;
         raise_ e) ].

(** *** main (lines 129-142) *)

(** The statements inside [main]'s [try]. *)
Definition main_body : M unit :=
  clf <- load_model "models/model.pkl" ;;
  logger_debug "Saved model loaded successfully" ;;
  test_data <- load_data "data/processed" ;;
  logger_debug "Test Data loaded successfully" ;;
  let X_test := iloc_all_but_last test_data in
  Y_test <- iloc_last test_data ;;
  metrics_dict <- evaluate_model clf X_test Y_test ;;
  logger_debug "Model Evaluation dictionary created successfully" ;;
  save_metrics_dict metrics_dict "reports/metrics.json" ;;
  logger_debug "JSON dump of model evaluation dictionary done".

Definition main : M unit :=
  try_except main_body
    [ (Exception, fun e =>
         logger_error ("An error occurred in the main function: " +:+ str e)) ].

End Pipeline.

(** ** Vocabulary of the statements *)

(** The world once the logger has handled a record at [lvl]. *)
Definition logged (lvl : level) (msg : string) (w : world) : world := snd (emit lvl msg w).

(** The record [logger.error(msg)] hands to both handlers. *)
Definition error_record (msg : string) : log_record := mkRecord logger_name ERROR msg.

(** A stage called by [main] raises [e], leaving the world [w']: the stages
    before it returned, with the debug lines in between. *)
Inductive stage_raises (ext : externals) (w : world) (e : exn) (w' : world) : Prop :=
  | raises_in_load_model :
      load_model ext "models/model.pkl" w = (Raise e, w') ->
      stage_raises ext w e w'
  | raises_in_load_data clf w1 :
      load_model ext "models/model.pkl" w = (Ok clf, w1) ->
      load_data ext "data/processed" (logged DEBUG "Saved model loaded successfully" w1)
        = (Raise e, w') ->
      stage_raises ext w e w'
  | raises_in_evaluate_model clf w1 test_data w2 Y_test w3 :
      load_model ext "models/model.pkl" w = (Ok clf, w1) ->
      load_data ext "data/processed" (logged DEBUG "Saved model loaded successfully" w1)
        = (Ok test_data, w2) ->
      iloc_last test_data (logged DEBUG "Test Data loaded successfully" w2) = (Ok Y_test, w3) ->
      evaluate_model ext clf (iloc_all_but_last test_data) Y_test w3 = (Raise e, w') ->
      stage_raises ext w e w'
  | raises_in_save_metrics_dict clf w1 test_data w2 Y_test w3 metrics_dict w4 :
      load_model ext "models/model.pkl" w = (Ok clf, w1) ->
      load_data ext "data/processed" (logged DEBUG "Saved model loaded successfully" w1)
        = (Ok test_data, w2) ->
      iloc_last test_data (logged DEBUG "Test Data loaded successfully" w2) = (Ok Y_test, w3) ->
      evaluate_model ext clf (iloc_all_but_last test_data) Y_test w3 = (Ok metrics_dict, w4) ->
      save_metrics_dict ext metrics_dict "reports/metrics.json"
        (logged DEBUG "Model Evaluation dictionary created successfully" w4) = (Raise e, w') ->
      stage_raises ext w e w'.

(** A float that is a number between 0 and 1. *)
Definition in_unit_interval (x : pyfloat) : Prop :=
  match x with
  | Fl q => (0 <= q)%Q /\ (q <= 1)%Q
  | NaN => False
  end.

(** The same number (floats are kept as unreduced fractions). *)
Definition float_is (x : pyfloat) (q : Q) : Prop :=
  match x with
  | Fl p => (p == q)%Q
  | NaN => False
  end.

(** The computations behind a mapping that [evaluate_model] returns:
    lines 81-82, 84-87 and 98-103. *)
Inductive evaluates (clf : model_obj) (X_test : DataFrame) (Y_test : list Z)
  : list (string * pyval) -> Prop :=
  | evaluates_intro f g Y_pred P Y_pred_proba accuracy precision recall auc :
      predict clf = Some f -> f X_test = Ok Y_pred ->
      predict_proba clf = Some g -> g X_test = Ok P ->
      column P 1 = Ok Y_pred_proba ->
      sklearn.accuracy_score Y_test Y_pred = Ok accuracy ->
      sklearn.precision_score Y_test Y_pred = Ok precision ->
      sklearn.recall_score Y_test Y_pred = Ok recall ->
      sklearn.roc_auc_score Y_test Y_pred_proba = Ok auc ->
      evaluates clf X_test Y_test
        [ ("accuracy", PFloat accuracy);
          ("precision", PFloat precision);
          ("recall", PFloat recall);
          ("auc", PFloat auc) ].

(** [d.get(k)] on a mapping kept as its list of entries. *)
Fixpoint dict_get (k : string) (d : list (string * pyval)) : option pyval :=
  match d with
  | [] => None
  | (k', v) :: d' => if String.eqb k k' then Some v else dict_get k d'
  end.

(** Labels that are all 0 or 1. *)
Definition binary_labels (l : list Z) : Prop := Forall (fun t => t = 0%Z \/ t = 1%Z) l.

(** *** Sample inputs

    A classifier that answers 1 for every row and reads the positive-class
    probability off the first cell (in tenths), libraries that accept
    everything, and a working directory with the three input files. *)

Definition always_one (X : DataFrame) : outcome (list Z) := Ok (repeat 1%Z (nrows X)).

Definition tenths (X : DataFrame) : outcome ndarray2 :=
  Ok (mkArray2 2 (List.map (fun r => [(1 - (hd 0%Z r # 10))%Q; hd 0%Z r # 10]) (rows X))).

Definition constant_clf : model_obj := mkModel "DummyClassifier" (Some always_one) (Some tenths).

Definition not_a_classifier : model_obj := mkModel "dict" None None.

Definition sample_params : pyval :=
  PDict [("model_building",
          PDict [("n_estimators", PInt 50); ("learning_rate", PFloat (Fl (1 # 10)))])].

Definition sample_table : DataFrame :=
  mkDataFrame 2 [[9; 1]; [8; 1]; [2; 0]; [7; 1]]%Z.

Definition plain_quotes (s : string) : string := dquote +:+ s +:+ dquote.

Definition sample_ext (params : pyval) : externals :=
  mkExternals
    (fun _ => Ok params)
    (fun _ => Ok constant_clf)
    (fun _ => Ok sample_table)
    (fun _ => None)
    (fun _ => "0.75")
    plain_quotes
    None
    (fun _ _ => None)
    (fun _ _ => None).

Definition empty_dir : world := mkWorld ∅ [] [] [].

Definition sample_dir : world :=
  mkWorld (list_to_map [("models/model.pkl", "pickle");
                        ("data/processed/test_bow.csv", "csv");
                        ("params.yaml", "yaml")]) [] [] [].

(** What [evaluate_model] returns and leaves behind on the sample: three of
    the four rows are positive and predicted positive, and the scores 0.9,
    0.8, 0.7 of the positives all exceed the 0.2 of the negative. *)
Definition sample_metrics : list (string * pyval) :=
  [ ("accuracy", PFloat (Fl (3 # 4))); ("precision", PFloat (Fl (3 # 4)));
    ("recall", PFloat (Fl (3 # 3))); ("auc", PFloat (Fl (6 # 6))) ].

Definition sample_tracked : world :=
  mkWorld (fs sample_dir) [] []
    [ LiveOpen true;
      LogMetric "accuracy" (Fl (3 # 4)); LogMetric "precision" (Fl (3 # 4));
      LogMetric "recall" (Fl (3 # 3)); LogMetric "roc -auc score" (Fl (6 # 6));
      LogParam "model_building_n_estimators" (PInt 50);
      LogParam "model_building_learning_rate" (PFloat (Fl (1 # 10)));
      LiveEnd ].

(** A working directory where [params.yaml] is missing. *)
Definition dir_without_params : world :=
  mkWorld (list_to_map [("models/model.pkl", "pickle");
                        ("data/processed/test_bow.csv", "csv")]) [] [] [].

(** A mapping with a value that [json] cannot serialise, and the text the
    encoder has written when it reaches that value. *)
Definition unserializable_metrics : list (string * pyval) :=
  [ ("accuracy", PFloat (Fl (3 # 4))); ("tags", PObject "set") ].

Definition partial_dump (ext : externals) : string :=
  "{" +:+ nl +:+ "    " +:+ encode_basestring_ascii ext "accuracy" +:+ ": "
      +:+ float_repr ext (Fl (3 # 4)) +:+ "," +:+ nl +:+ "    "
      +:+ encode_basestring_ascii ext "tags" +:+ ": ".

(** *** Effects on the tracker *)

(** The world with further calls received by the tracker. *)
Definition track (evs : list live_event) (w : world) : world :=
  mkWorld (fs w) (console w) (errors_log w) (tracker w ++ evs).

Definition is_record (ev : live_event) : Prop :=
  match ev with
  | LogMetric _ _ | LogParam _ _ => True
  | LiveOpen _ | LiveEnd => False
  end.

(** What a call has added to the tracker when it is over: nothing, or one
    whole session, opened, written to and ended. *)
Inductive one_scoped_session (before after : list live_event) : Prop :=
  | no_session : after = before -> one_scoped_session before after
  | whole_session b records :
      after = before ++ LiveOpen b :: records ++ [LiveEnd] ->
      Forall is_record records ->
      one_scoped_session before after.

(** A computation that leaves the tracker alone, one that only writes
    records to it, and one that runs at most one whole session, each of them
    whether it returns or raises. *)
Definition quiet {A} (m : M A) : Prop :=
  forall w, tracker (snd (m w)) = tracker w.

Definition records_only {A} (m : M A) : Prop :=
  forall w, exists evs, tracker (snd (m w)) = tracker w ++ evs /\ Forall is_record evs.

Definition scoped {A} (m : M A) : Prop :=
  forall w, one_scoped_session (tracker w) (tracker (snd (m w))).

(** Parameters with a scalar next to the sections. *)
Definition params_with_scalar : list (string * pyval) :=
  [ ("model_building", PDict [("n_estimators", PInt 50)]); ("seed", PInt 42) ].

(** A tracker that refuses the metric named precision. *)
Definition refusing_ext : externals :=
  mkExternals
    (fun _ => Ok sample_params)
    (fun _ => Ok constant_clf)
    (fun _ => Ok sample_table)
    (fun _ => None)
    (fun _ => "0.75")
    plain_quotes
    None
    (fun name _ => if String.eqb name "precision"
                   then Some (mkExn (Custom "InvalidDataTypeError" [Custom "DvcLiveError" []])
                                "Data 'precision' has not supported type")
                   else None)
    (fun _ _ => None).

(** *** Footprints

    A relation [R] between the world before and after is respected by a
    computation when it holds whatever the computation does and however it
    ends. *)
Definition respects (R : world -> world -> Prop) {A} (m : M A) : Prop :=
  forall w, R w (snd (m w)).

(** The world with [content] at [path]. *)
Definition set_file (path content : string) (w : world) : world :=
  mkWorld (<[path := content]> (fs w)) (console w) (errors_log w) (tracker w).

(** The files the pipeline names: its three inputs, and its output. *)
Definition input_files : list string :=
  ["models/model.pkl"; "data/processed/test_bow.csv"; "params.yaml"].

Definition pipeline_files : list string := input_files ++ ["reports/metrics.json"].

(** None of the files of [fs] created, removed or changed. *)
Definition same_files (w w' : world) : Prop := fs w' = fs w.

(** No file of [fs] other than the one at [path] created, removed or changed. *)
Definition same_files_except (path : string) (w w' : world) : Prop :=
  forall q, q <> path -> fs w' !! q = fs w !! q.

(** A record that the file handler lets through to [errors.log]. *)
Definition reaches_file (r : log_record) : bool :=
  negb (Nat.ltb (levelno (rec_level r)) (levelno file_handler_level)).

(** Both logs have only grown, by the same records in the same order, of
    which [errors.log] has those at WARNING and above. *)
Definition logs_grow (w w' : world) : Prop :=
  exists recs,
    console w' = console w ++ recs /\
    errors_log w' = errors_log w ++ List.filter reaches_file recs.

(** *** Flattened hyperparameters (lines 94-96) *)

(** The [(f'{param}_{key}', val)] pairs in the order the two loops visit
    them. *)
Definition flat_params (sections : list (string * pyval)) : list (string * pyval) :=
  flat_map (fun '(param, value) =>
              match value with
              | PDict entries =>
                  List.map (fun '(key, val) => (param +:+ "_" +:+ key, val)) entries
              | _ => []
              end) sections.

Definition param_events (flat : list (string * pyval)) : list live_event :=
  List.map (fun '(name, val) => LogParam name val) flat.

(** *** What [json] can encode *)



(** *** More sample inputs *)

(** A classifier with [predict] only, and one whose [predict_proba] has a
    single column. *)
Definition labels_only_clf : model_obj := mkModel "LinearSVC" (Some always_one) None.

Definition one_column (X : DataFrame) : outcome ndarray2 :=
  Ok (mkArray2 1 (List.map (fun _ => [1%Q]) (rows X))).

Definition one_column_clf : model_obj :=
  mkModel "DummyClassifier" (Some always_one) (Some one_column).

(** sklearn's [NotFittedError(ValueError, AttributeError)], and a classifier
    that was never trained. *)
Definition NotFittedError : exc_class := Custom "NotFittedError" [ValueError; AttributeError].

Definition not_fitted : exn :=
  mkExn NotFittedError
    "This RandomForestClassifier instance is not fitted yet. Call 'fit' with appropriate arguments before using this estimator.".

Definition unfitted_clf : model_obj :=
  mkModel "RandomForestClassifier" (Some (fun _ => Raise not_fitted)) (Some tenths).

(** An operating system that finds no [reports] directory. *)
Definition no_reports_dir_ext : externals :=
  mkExternals
    (fun _ => Ok sample_params)
    (fun _ => Ok constant_clf)
    (fun _ => Ok sample_table)
    (fun path => Some (no_such_file path))
    (fun _ => "0.75")
    plain_quotes
    None
    (fun _ _ => None)
    (fun _ _ => None).

(** A handler of the form [logger.error(...); raise]. *)
Definition reraises {A} (h : exn -> M A) : Prop :=
  forall e w, exists msg, h e w = (Raise e, logged ERROR msg w).

(** ** Basic facts *)

Lemma append_assoc (a b c : string) : (a +:+ b) +:+ c = a +:+ b +:+ c.
Proof.
  induction a as [|x a IH]; [reflexivity|].
  change (String x ((a +:+ b) +:+ c) = String x (a +:+ b +:+ c)). now rewrite IH.
Qed.

Lemma append_nil_r (a : string) : a +:+ EmptyString = a.
Proof.
  induction a as [|x a IH]; [reflexivity|].
  change (String x (a +:+ EmptyString) = String x a). now rewrite IH.
Qed.

Lemma issubclass_Exception (c : exc_class) : issubclass c Exception = true.
Proof.
  unfold issubclass. destruct c; try reflexivity.
  cbn [mro existsb]. rewrite existsb_app. cbn. now rewrite !orb_true_r.
Qed.

Lemma isinstance_Exception (e : exn) : isinstance e Exception = true.
Proof. apply issubclass_Exception. Qed.

Lemma emit_logged lvl msg w : emit lvl msg w = (Ok tt, logged lvl msg w).
Proof. unfold logged, emit. destruct lvl; reflexivity. Qed.

Lemma logged_ERROR msg w :
  logged ERROR msg w =
  mkWorld (fs w) (console w ++ [error_record msg]) (errors_log w ++ [error_record msg]) (tracker w).
Proof. reflexivity. Qed.

Lemma logged_DEBUG msg w :
  logged DEBUG msg w =
  mkWorld (fs w) (console w ++ [mkRecord logger_name DEBUG msg]) (errors_log w) (tracker w).
Proof. reflexivity. Qed.

Lemma logger_error_reraise {A} msg e w :
  (logger_error msg ;; @raise_ A e) w = (Raise e, logged ERROR msg w).
Proof. reflexivity. Qed.

Lemma bind_Ok {A B} (m : M A) (k : A -> M B) w b w' :
  bind m k w = (Ok b, w') -> exists a w1, m w = (Ok a, w1) /\ k a w1 = (Ok b, w').
Proof.
  unfold bind. destruct (m w) as [[a|e] w1]; [eauto | discriminate].
Qed.

Lemma bind_eq_Ok {A B} (m : M A) (k : A -> M B) w a w1 :
  m w = (Ok a, w1) -> bind m k w = k a w1.
Proof. unfold bind. now intros ->. Qed.

Lemma bind_eq_Raise {A B} (m : M A) (k : A -> M B) w e w1 :
  m w = (Raise e, w1) -> bind m k w = (Raise e, w1).
Proof. unfold bind. now intros ->. Qed.

Lemma lift_Ok {A} (o : outcome A) w a w' : lift o w = (Ok a, w') -> o = Ok a /\ w' = w.
Proof. unfold lift. intros [= -> ->]. auto. Qed.

(** With handlers that all re-raise, a [try] never turns a failure into a
    result: what it raises is what its body raised. *)
Lemma dispatch_reraises {A} (e : exn) (hs : list (exc_class * (exn -> M A))) w :
  Forall (fun ch => reraises (snd ch)) hs ->
  dispatch e hs w = (Raise e, w) \/ exists msg, dispatch e hs w = (Raise e, logged ERROR msg w).
Proof.
  induction 1 as [|[c h] hs Hh _ IH]; cbn [dispatch]; [now left|].
  destruct (isinstance e c); [right; apply Hh | exact IH].
Qed.

Lemma try_except_Ok {A} (body : M A) hs w a w' :
  Forall (fun ch => reraises (snd ch)) hs ->
  try_except body hs w = (Ok a, w') -> body w = (Ok a, w').
Proof.
  intros Hhs. unfold try_except. destruct (body w) as [[x|e] w1]; [auto|].
  destruct (dispatch_reraises e hs w1 Hhs) as [-> | [msg ->]]; discriminate.
Qed.

Lemma try_except_eq_Ok {A} (body : M A) hs w a w' :
  body w = (Ok a, w') -> try_except body hs w = (Ok a, w').
Proof. unfold try_except. now intros ->. Qed.

Ltac reraising :=
  repeat first
    [ apply List.Forall_nil
    | apply List.Forall_cons; [intros ? ?; eexists; apply logger_error_reraise|] ].

(** ** The orchestrator *)

Lemma main_of_body ext w :
  main ext w =
  match main_body ext w with
  | (Ok a, w') => (Ok a, w')
  | (Raise e, w') => (Ok tt, logged ERROR ("An error occurred in the main function: " +:+ str e) w')
  end.
Proof.
  unfold main, try_except. destruct (main_body ext w) as [[a|e] w']; [reflexivity|].
  cbn [dispatch]. rewrite isinstance_Exception. apply emit_logged.
Qed.

Lemma main_total ext w : exists w', main ext w = (Ok tt, w').
Proof.
  rewrite main_of_body. destruct (main_body ext w) as [[[]|e] w']; eauto.
Qed.

Lemma stage_raises_main_body ext w e w' :
  stage_raises ext w e w' -> main_body ext w = (Raise e, w').
Proof.
  unfold main_body, logger_debug.
  intros [H1 | clf w1 H1 H2 | clf w1 td w2 Y w3 H1 H2 H3 H4
          | clf w1 td w2 Y w3 m w4 H1 H2 H3 H4 H5].
  - now apply bind_eq_Raise.
  - rewrite (bind_eq_Ok _ _ _ _ _ H1).
    rewrite (bind_eq_Ok _ _ _ _ _ (emit_logged _ _ _)).
    now apply bind_eq_Raise.
  - rewrite (bind_eq_Ok _ _ _ _ _ H1).
    rewrite (bind_eq_Ok _ _ _ _ _ (emit_logged _ _ _)).
    rewrite (bind_eq_Ok _ _ _ _ _ H2).
    rewrite (bind_eq_Ok _ _ _ _ _ (emit_logged _ _ _)).
    rewrite (bind_eq_Ok _ _ _ _ _ H3).
    now apply bind_eq_Raise.
  - rewrite (bind_eq_Ok _ _ _ _ _ H1).
    rewrite (bind_eq_Ok _ _ _ _ _ (emit_logged _ _ _)).
    rewrite (bind_eq_Ok _ _ _ _ _ H2).
    rewrite (bind_eq_Ok _ _ _ _ _ (emit_logged _ _ _)).
    rewrite (bind_eq_Ok _ _ _ _ _ H3).
    rewrite (bind_eq_Ok _ _ _ _ _ H4).
    rewrite (bind_eq_Ok _ _ _ _ _ (emit_logged _ _ _)).
    now apply bind_eq_Raise.
Qed.

Lemma main_catches_stage_failure_eq ext w e w1 :
  stage_raises ext w e w1 ->
  exists w', main ext w = (Ok tt, w') /\
    w' = logged ERROR ("An error occurred in the main function: " +:+ str e) w1.
Proof.
  intros H. eexists; split; [|reflexivity].
  now rewrite main_of_body, (stage_raises_main_body _ _ _ _ H).
Qed.

(** C1. Whatever the stages do, [main] returns normally; and when a stage
    (model load, data load, evaluation, metrics save) raises [e], [main]
    catches it, hands one ERROR record naming [e] to both log handlers, and
    returns without raising. *)
Theorem main_catches_every_stage_failure (ext : externals) (w : world) :
  (exists w', main ext w = (Ok tt, w')) /\
  (forall e w1, stage_raises ext w e w1 ->
     main ext w =
     (Ok tt,
      mkWorld (fs w1)
        (console w1 ++ [error_record ("An error occurred in the main function: " +:+ str e)])
        (errors_log w1 ++ [error_record ("An error occurred in the main function: " +:+ str e)])
        (tracker w1))).
Proof.
  split; [apply main_total|].
  intros e w1 H. rewrite main_of_body, (stage_raises_main_body _ _ _ _ H).
  reflexivity.
Qed.

Lemma load_model_absent ext url w :
  fs w !! url = None ->
  load_model ext url w =
  (Raise (no_such_file url), logged ERROR ("Error: The file " +:+ url +:+ " was not found.") w).
Proof.
  intros H. unfold load_model, try_except, bind, open_read. rewrite H. reflexivity.
Qed.

(** C2. With no file at [models/model.pkl], [main] returns normally, both
    log handlers receive an ERROR record whose message contains "not found",
    and no file is created or changed, [reports/metrics.json] included. *)
Theorem main_without_model_artifact (ext : externals) (w : world) :
  fs w !! "models/model.pkl" = None ->
  exists w' r rest,
    main ext w = (Ok tt, w') /\
    console w' = console w ++ r :: rest /\
    errors_log w' = errors_log w ++ r :: rest /\
    rec_level r = ERROR /\
    contains "not found" (rec_msg r) = true /\
    fs w' = fs w /\
    fs w' !! "reports/metrics.json" = fs w !! "reports/metrics.json".
Proof.
  intros H.
  pose proof (raises_in_load_model ext w _ _ (load_model_absent ext _ w H)) as Hs.
  destruct (main_catches_stage_failure_eq ext w _ _ Hs) as [w' [Hm Hw']].
  exists w', (error_record "Error: The file models/model.pkl was not found."), 
    [error_record ("An error occurred in the main function: "
                     +:+ str (no_such_file "models/model.pkl"))].
  subst w'. rewrite Hm, !logged_ERROR. cbn [fs console errors_log].
  rewrite <- !app_assoc. repeat split; reflexivity.
Qed.

Lemma main_without_model_artifact_witness :
  fs empty_dir !! "models/model.pkl" = None /\
  exists w' r rest,
    main (sample_ext sample_params) empty_dir = (Ok tt, w') /\
    console w' = console empty_dir ++ r :: rest /\
    errors_log w' = errors_log empty_dir ++ r :: rest /\
    rec_level r = ERROR /\
    contains "not found" (rec_msg r) = true /\
    fs w' = fs empty_dir /\
    fs w' !! "reports/metrics.json" = fs empty_dir !! "reports/metrics.json".
Proof.
  split; [reflexivity|].
  apply (main_without_model_artifact (sample_ext sample_params) empty_dir). reflexivity.
Defined.

Lemma main_catches_every_stage_failure_witness :
  stage_raises (sample_ext sample_params) empty_dir (no_such_file "models/model.pkl")
    (logged ERROR "Error: The file models/model.pkl was not found." empty_dir) /\
  main (sample_ext sample_params) empty_dir =
  (Ok tt,
   mkWorld ∅
     [error_record "Error: The file models/model.pkl was not found.";
      error_record "An error occurred in the main function: [Errno 2] No such file or directory: 'models/model.pkl'"]
     [error_record "Error: The file models/model.pkl was not found.";
      error_record "An error occurred in the main function: [Errno 2] No such file or directory: 'models/model.pkl'"]
     []).
Proof.
  split.
  - apply raises_in_load_model. reflexivity.
  - apply (proj2 (main_catches_every_stage_failure (sample_ext sample_params) empty_dir)
             (no_such_file "models/model.pkl")
             (logged ERROR "Error: The file models/model.pkl was not found." empty_dir)).
    apply raises_in_load_model. reflexivity.
Defined.

(** ** The metrics *)

Module sklearn_facts.
Import sklearn.

Lemma Zpos_of_nat (n : nat) : n <> 0%nat -> Z.pos (Pos.of_nat n) = Z.of_nat n.
Proof.
  intros Hn. rewrite <- (Nat2Pos.id n) at 2 by exact Hn. now rewrite positive_nat_Z.
Qed.

Lemma ratio_unit (num den : nat) :
  (num <= den)%nat -> (0 <= ratio num den)%Q /\ (ratio num den <= 1)%Q.
Proof.
  intros Hle. unfold ratio, Qle. cbn [Qnum Qden].
  destruct (Nat.eq_dec den 0) as [-> | Hden].
  - assert (num = 0%nat) as -> by lia. cbn. lia.
  - rewrite (Zpos_of_nat den Hden). lia.
Qed.

Lemma count_le_length {A} (f : A -> bool) (l : list A) : (count f l <= length l)%nat.
Proof.
  unfold count. induction l as [|x l IH]; cbn; [lia|]. destruct (f x); cbn; lia.
Qed.

Lemma length_combine_le {A B} (l : list A) (l' : list B) :
  (length (combine l l') <= length l)%nat /\ (length (combine l l') <= length l')%nat.
Proof.
  revert l'. induction l as [|x l IH]; intros [|y l']; cbn; try lia.
  specialize (IH l'). lia.
Qed.

Lemma true_positives_le_predicted (y_true y_pred : list Z) :
  (true_positives y_true y_pred <= count (Z.eqb 1) y_pred)%nat.
Proof.
  unfold true_positives, count. revert y_pred.
  induction y_true as [|t y_true IH]; intros [|p y_pred];
    cbn [combine List.filter length]; try lia.
  specialize (IH y_pred). rewrite (Z.eqb_sym 1 p).
  destruct (Z.eqb t 1), (Z.eqb p 1); cbn [andb length]; lia.
Qed.

Lemma true_positives_le_actual (y_true y_pred : list Z) :
  (true_positives y_true y_pred <= count (Z.eqb 1) y_true)%nat.
Proof.
  unfold true_positives, count. revert y_pred.
  induction y_true as [|t y_true IH]; intros [|p y_pred];
    cbn [combine List.filter length]; try lia.
  specialize (IH y_pred). rewrite (Z.eqb_sym 1 t).
  destruct (Z.eqb t 1), (Z.eqb p 1); cbn [andb length]; lia.
Qed.

Lemma check_consistent_length_Ok {A} a b (k : outcome A) x :
  check_consistent_length a b k = Ok x -> a = b /\ k = Ok x.
Proof.
  unfold check_consistent_length. destruct (Nat.eqb_spec a b); [auto | discriminate].
Qed.

Lemma check_binary_Ok {A} y_true y_pred (k : outcome A) x :
  check_binary y_true y_pred k = Ok x -> length y_true = length y_pred /\ k = Ok x.
Proof.
  unfold check_binary. intros H. apply check_consistent_length_Ok in H as [Hlen H].
  split; [exact Hlen|].
  destruct (Nat.eqb (length y_true) 0); [discriminate|].
  destruct (Nat.ltb 2 _); [discriminate|].
  destruct (negb _ && _); [discriminate | exact H].
Qed.

Lemma accuracy_score_unit y_true y_pred x :
  accuracy_score y_true y_pred = Ok x -> in_unit_interval x.
Proof.
  intros H. unfold accuracy_score in H.
  apply check_consistent_length_Ok in H as [_ H].
  destruct (length y_true) eqn:Hl.
  - discriminate.
  - injection H as <-. apply ratio_unit. rewrite <- Hl.
    etransitivity; [apply count_le_length | apply length_combine_le].
Qed.

Lemma precision_score_unit y_true y_pred x :
  precision_score y_true y_pred = Ok x -> in_unit_interval x.
Proof.
  intros H. apply check_binary_Ok in H as [_ H].
  destruct (count (Z.eqb 1) y_pred) eqn:Hc; injection H as <-.
  - cbn. split; apply Qle_refl || discriminate.
  - apply ratio_unit. rewrite <- Hc. apply true_positives_le_predicted.
Qed.

Lemma recall_score_unit y_true y_pred x :
  recall_score y_true y_pred = Ok x -> in_unit_interval x.
Proof.
  intros H. apply check_binary_Ok in H as [_ H].
  destruct (count (Z.eqb 1) y_true) eqn:Hc; injection H as <-.
  - cbn. split; apply Qle_refl || discriminate.
  - apply ratio_unit. rewrite <- Hc. apply true_positives_le_actual.
Qed.

Lemma Qltb_not_eq (a b : Q) : Qltb a b = true -> Qeq_bool b a = false.
Proof.
  unfold Qltb. intros H. apply negb_true_iff in H.
  destruct (Qeq_bool b a) eqn:He; [|reflexivity].
  apply Qeq_bool_iff in He. assert (Qle_bool b a = true) as Hle.
  { apply Qle_bool_iff. rewrite He. apply Qle_refl. }
  congruence.
Qed.

(** A pair is a win or a tie, never both. *)
Lemma wins_ties_le (pairs : list (Q * Q)) :
  (count (fun '(p, n) => Qltb n p) pairs + count (fun '(p, n) => Qeq_bool p n) pairs
   <= length pairs)%nat.
Proof.
  unfold count. induction pairs as [|[p n] pairs IH]; cbn; [lia|].
  destruct (Qltb n p) eqn:Hw.
  - rewrite (Qltb_not_eq _ _ Hw). cbn. lia.
  - destruct (Qeq_bool p n); cbn; lia.
Qed.

(** A value comes back either for two classes, and is then a number
    between 0 and 1, or for a single class, and is then [nan]. *)
Lemma roc_auc_score_Ok y_true y_score x :
  roc_auc_score y_true y_score = Ok x ->
  (length (unique y_true) = 2%nat /\ in_unit_interval x) \/
  (length (unique y_true) = 1%nat /\ x = NaN).
Proof.
  unfold roc_auc_score. intros H.
  destruct (unique y_true) as [|a [|b [|c l]]] eqn:Hu; try discriminate.
  - right. injection H as <-. auto.
  - left. split; [reflexivity|].
    apply check_consistent_length_Ok in H as [_ H].
    injection H as <-. apply ratio_unit.
    pose proof (wins_ties_le
      (list_prod (scores_of (Z.eqb (Z.max a b)) y_true y_score)
                 (scores_of (fun t => negb (Z.eqb (Z.max a b) t)) y_true y_score))).
    lia.
Qed.

(** *** On 0/1 labels with both classes present, every score is defined *)

Lemma unique_binary (l : list Z) :
  binary_labels l -> (length (unique l) <= 2)%nat.
Proof.
  intros Hbin. unfold unique.
  assert (NoDup (nodup Z.eq_dec l)) as Hnd by apply NoDup_ListNoDup, List.NoDup_nodup.
  assert (forall x, In x (nodup Z.eq_dec l) -> x = 0%Z \/ x = 1%Z) as Hin.
  { intros x Hx. apply List.nodup_In in Hx. unfold binary_labels in Hbin.
    rewrite List.Forall_forall in Hbin. auto. }
  destruct (nodup Z.eq_dec l) as [|a [|b [|c l']]]; cbn [length]; try lia.
  exfalso.
  pose proof (Hin a ltac:(cbn; auto)) as Ha.
  pose proof (Hin b ltac:(cbn; auto)) as Hb.
  pose proof (Hin c ltac:(cbn; auto)) as Hc.
  apply NoDup_cons in Hnd as [Hab Hnd]. apply NoDup_cons in Hnd as [Hbc _].
  apply not_elem_of_cons in Hab as [Hab Hac]. apply not_elem_of_cons in Hac as [Hac _].
  apply not_elem_of_cons in Hbc as [Hbc _]. lia.
Qed.

Lemma unique_both_classes (l : list Z) :
  binary_labels l -> In 0%Z l -> In 1%Z l -> exists a b, unique l = [a; b].
Proof.
  intros Hbin H0 H1. pose proof (unique_binary l Hbin) as Hlen. unfold unique in *.
  apply (List.nodup_In Z.eq_dec) in H0, H1.
  destruct (nodup Z.eq_dec l) as [|a [|b [|c l']]]; cbn [length] in Hlen.
  - destruct H0.
  - cbn in H0, H1. lia.
  - eauto.
  - lia.
Qed.

Lemma check_binary_passes {A} (y_true y_pred : list Z) (k : outcome A) :
  binary_labels y_true -> binary_labels y_pred -> In 1%Z y_true ->
  length y_true = length y_pred ->
  check_binary y_true y_pred k = k.
Proof.
  intros Ht Hp H1 Hlen. unfold check_binary, check_consistent_length.
  rewrite Hlen, Nat.eqb_refl.
  assert (Nat.eqb (length y_pred) 0 = false) as ->.
  { apply Nat.eqb_neq. rewrite <- Hlen. destruct y_true; [destruct H1 | discriminate]. }
  assert (binary_labels (y_true ++ y_pred)) as Hbin by now apply Forall_app.
  pose proof (unique_binary _ Hbin) as Hu.
  destruct (Nat.ltb_spec 2 (length (unique (y_true ++ y_pred)))) as [|_]; [lia|].
  assert (existsb (Z.eqb 1) (unique (y_true ++ y_pred)) = true) as ->; [|reflexivity].
  apply List.existsb_exists. exists 1%Z. split; [|reflexivity].
  apply List.nodup_In, List.in_or_app. now left.
Qed.

Lemma binary_scores_defined (y_true y_pred : list Z) (y_score : list Q) :
  binary_labels y_true -> binary_labels y_pred ->
  In 0%Z y_true -> In 1%Z y_true ->
  length y_pred = length y_true -> length y_score = length y_true ->
  exists accuracy precision recall auc,
    accuracy_score y_true y_pred = Ok accuracy /\
    precision_score y_true y_pred = Ok precision /\
    recall_score y_true y_pred = Ok recall /\
    roc_auc_score y_true y_score = Ok auc.
Proof.
  intros Ht Hp H0 H1 Hlp Hls.
  destruct (unique_both_classes y_true Ht H0 H1) as (a & b & Hu).
  unfold accuracy_score, precision_score, recall_score, roc_auc_score.
  rewrite !(check_binary_passes y_true y_pred) by (auto; congruence).
  rewrite Hu. unfold check_consistent_length. rewrite Hlp, Hls, !Nat.eqb_refl.
  destruct (length y_true) eqn:Hlen; [destruct y_true; [destruct H0 | discriminate]|].
  destruct (count (Z.eqb 1) y_pred), (count (Z.eqb 1) y_true); eauto 10.
Qed.

End sklearn_facts.

(** ** evaluate_model *)

Lemma load_params_Ok ext url w params w' :
  load_params ext url w = (Ok params, w') ->
  w' = w /\ exists file, fs w !! url = Some file /\ yaml_safe_load ext file = Ok params.
Proof.
  intros H. unfold load_params in H. apply try_except_Ok in H; [|reraising].
  apply bind_Ok in H as (file & w1 & Hopen & H).
  apply bind_Ok in H as (p & w2 & Hload & H).
  unfold open_read in Hopen. destruct (fs w !! url) as [c|] eqn:Hfs; [|discriminate].
  injection Hopen as <- <-. apply lift_Ok in Hload as [Hload ->].
  injection H as <- <-. eauto.
Qed.

Lemma load_params_eq_Ok ext url w file params :
  fs w !! url = Some file -> yaml_safe_load ext file = Ok params ->
  load_params ext url w = (Ok params, w).
Proof.
  intros Hfs Hy. unfold load_params, try_except, bind, open_read, lift.
  now rewrite Hfs, Hy.
Qed.

Lemma call_predict_Ok clf X w Y_pred w' :
  call_predict clf X w = (Ok Y_pred, w') ->
  w' = w /\ exists f, predict clf = Some f /\ f X = Ok Y_pred.
Proof.
  unfold call_predict. destruct (predict clf) as [f|]; [|discriminate].
  intros H. apply lift_Ok in H as [H ->]. eauto.
Qed.

Lemma call_predict_proba_Ok clf X w P w' :
  call_predict_proba clf X w = (Ok P, w') ->
  w' = w /\ exists g, predict_proba clf = Some g /\ g X = Ok P.
Proof.
  unfold call_predict_proba. destruct (predict_proba clf) as [g|]; [|discriminate].
  intros H. apply lift_Ok in H as [H ->]. eauto.
Qed.

(** A mapping comes back only from line 104, after every step before it. *)
Lemma evaluate_model_Ok ext clf X_test Y_test w m w' :
  evaluate_model ext clf X_test Y_test w = (Ok m, w') -> evaluates clf X_test Y_test m.
Proof.
  intros H. unfold evaluate_model, evaluate_model_body in H. apply try_except_Ok in H; [|reraising].
  apply bind_Ok in H as (Y_pred & w1 & Hp & H).
  apply call_predict_Ok in Hp as [-> (f & Hf & Hfx)].
  apply bind_Ok in H as (scores & w2 & Hpp & H).
  apply bind_Ok in Hpp as (P & w3 & Hg & Hcol).
  apply call_predict_proba_Ok in Hg as [-> (g & Hg & Hgx)].
  apply lift_Ok in Hcol as [Hcol ->].
  apply bind_Ok in H as (params & w4 & _ & H).
  apply bind_Ok in H as (accuracy & w5 & Ha & H). apply lift_Ok in Ha as [Ha ->].
  apply bind_Ok in H as (precision & w6 & Hpr & H). apply lift_Ok in Hpr as [Hpr ->].
  apply bind_Ok in H as (recall & w7 & Hr & H). apply lift_Ok in Hr as [Hr ->].
  apply bind_Ok in H as (auc & w8 & Hu & H). apply lift_Ok in Hu as [Hu ->].
  apply bind_Ok in H as (u & w9 & _ & H).
  injection H as <- <-. econstructor; eassumption.
Qed.

(** C3. A mapping returned by [evaluate_model] has exactly the keys
    accuracy, precision, recall and auc, in that order, with accuracy,
    precision and recall floats between 0 and 1. On a binary-labelled
    [Y_test], one with two distinct labels, auc is between 0 and 1 as well;
    the only other labelling for which a mapping comes back is a single
    class, and auc is then [nan]. *)
Theorem evaluate_model_returns_four_unit_metrics
    (ext : externals) (clf : model_obj) (X_test : DataFrame) (Y_test : list Z)
    (w w' : world) (m : list (string * pyval)) :
  evaluate_model ext clf X_test Y_test w = (Ok m, w') ->
  List.map fst m = ["accuracy"; "precision"; "recall"; "auc"] /\
  exists accuracy precision recall auc,
    m = [ ("accuracy", PFloat accuracy); ("precision", PFloat precision);
          ("recall", PFloat recall); ("auc", PFloat auc) ] /\
    in_unit_interval accuracy /\ in_unit_interval precision /\
    in_unit_interval recall /\
    (length (sklearn.unique Y_test) = 2%nat -> in_unit_interval auc) /\
    (length (sklearn.unique Y_test) <> 2%nat ->
     length (sklearn.unique Y_test) = 1%nat /\ auc = NaN).
Proof.
  intros H. apply evaluate_model_Ok in H.
  destruct H as [f g Y_pred P scores accuracy precision recall auc _ _ _ _ _ Ha Hp Hr Hu].
  split; [reflexivity|]. exists accuracy, precision, recall, auc.
  split; [reflexivity|].
  split; [eauto using sklearn_facts.accuracy_score_unit|].
  split; [eauto using sklearn_facts.precision_score_unit|].
  split; [eauto using sklearn_facts.recall_score_unit|].
  destruct (sklearn_facts.roc_auc_score_Ok _ _ _ Hu) as [[Htwo Hauc] | [Hone ->]].
  - split; [auto | intros Hne; contradiction].
  - split; [intros Htwo; rewrite Hone in Htwo; discriminate | auto].
Qed.

Lemma sample_evaluation :
  evaluate_model (sample_ext sample_params) constant_clf
    (iloc_all_but_last sample_table) [1; 1; 0; 1]%Z sample_dir
  = (Ok sample_metrics, sample_tracked).
Proof. vm_compute. reflexivity. Defined.

Lemma evaluate_model_returns_four_unit_metrics_witness :
  evaluate_model (sample_ext sample_params) constant_clf
    (iloc_all_but_last sample_table) [1; 1; 0; 1]%Z sample_dir
  = (Ok sample_metrics, sample_tracked) /\
  length (sklearn.unique [1; 1; 0; 1]%Z) = 2%nat /\
  List.map fst sample_metrics = ["accuracy"; "precision"; "recall"; "auc"] /\
  exists accuracy precision recall auc,
    sample_metrics =
      [ ("accuracy", PFloat accuracy); ("precision", PFloat precision);
        ("recall", PFloat recall); ("auc", PFloat auc) ] /\
    in_unit_interval accuracy /\ in_unit_interval precision /\
    in_unit_interval recall /\
    (length (sklearn.unique [1; 1; 0; 1]%Z) = 2%nat -> in_unit_interval auc) /\
    (length (sklearn.unique [1; 1; 0; 1]%Z) <> 2%nat ->
     length (sklearn.unique [1; 1; 0; 1]%Z) = 1%nat /\ auc = NaN).
Proof.
  split; [exact sample_evaluation|]. split; [reflexivity|].
  exact (evaluate_model_returns_four_unit_metrics _ _ _ _ _ _ _ sample_evaluation).
Defined.

(** With a single class in [Y_test] the call still returns, and auc is
    [nan]. *)
Example single_class_auc_is_nan :
  fst (evaluate_model (sample_ext sample_params) constant_clf
         (iloc_all_but_last sample_table) [1; 1; 1; 1]%Z sample_dir)
  = Ok [ ("accuracy", PFloat (Fl (4 # 4))); ("precision", PFloat (Fl (4 # 4)));
         ("recall", PFloat (Fl (4 # 4))); ("auc", PFloat NaN) ].
Proof. vm_compute. reflexivity. Qed.

(** C4. With a classifier whose [predict] answers 1 for every row and
    [Y_test = [1,1,0,1]], the mapping [evaluate_model] returns has accuracy
    0.75, recall 1.0 and precision 0.75. *)
Theorem evaluate_model_constant_classifier
    (ext : externals) (clf : model_obj) (X_test : DataFrame)
    (f : DataFrame -> outcome (list Z)) (w w' : world) (m : list (string * pyval)) :
  predict clf = Some f ->
  f X_test = Ok (repeat 1%Z (nrows X_test)) ->
  evaluate_model ext clf X_test [1; 1; 0; 1]%Z w = (Ok m, w') ->
  exists accuracy precision recall auc,
    m = [ ("accuracy", PFloat accuracy); ("precision", PFloat precision);
          ("recall", PFloat recall); ("auc", PFloat auc) ] /\
    float_is accuracy (3 # 4) /\ float_is recall 1 /\ float_is precision (3 # 4).
Proof.
  intros Hf Hones H. apply evaluate_model_Ok in H.
  destruct H as [f' g Y_pred P scores accuracy precision recall auc Hf' Hfx _ _ _ Ha Hp Hr _].
  rewrite Hf in Hf'. injection Hf' as <-. rewrite Hones in Hfx. injection Hfx as <-.
  exists accuracy, precision, recall, auc. split; [reflexivity|].
  assert (nrows X_test = 4%nat) as Hn.
  { unfold sklearn.accuracy_score in Ha.
    apply sklearn_facts.check_consistent_length_Ok in Ha as [Hlen _].
    rewrite repeat_length in Hlen. now symmetry. }
  rewrite Hn in Ha, Hp, Hr.
  vm_compute in Ha, Hp, Hr. injection Ha as <-. injection Hp as <-. injection Hr as <-.
  repeat split; reflexivity.
Qed.

Lemma evaluate_model_constant_classifier_witness :
  predict constant_clf = Some always_one /\
  always_one (iloc_all_but_last sample_table)
    = Ok (repeat 1%Z (nrows (iloc_all_but_last sample_table))) /\
  evaluate_model (sample_ext sample_params) constant_clf
    (iloc_all_but_last sample_table) [1; 1; 0; 1]%Z sample_dir
  = (Ok sample_metrics, sample_tracked) /\
  exists accuracy precision recall auc,
    sample_metrics =
      [ ("accuracy", PFloat accuracy); ("precision", PFloat precision);
        ("recall", PFloat recall); ("auc", PFloat auc) ] /\
    float_is accuracy (3 # 4) /\ float_is recall 1 /\ float_is precision (3 # 4).
Proof.
  split; [reflexivity|]. split; [reflexivity|]. split; [exact sample_evaluation|].
  exact (evaluate_model_constant_classifier (sample_ext sample_params) constant_clf
           (iloc_all_but_last sample_table) always_one sample_dir sample_tracked
           sample_metrics eq_refl eq_refl sample_evaluation).
Defined.

(** C6. When the classifier object has no [predict] attribute,
    [evaluate_model] raises the AttributeError of the failed lookup: the
    first handler logs it at ERROR and re-raises it, no mapping is returned,
    and nothing else has happened. *)
Theorem evaluate_model_without_predict
    (ext : externals) (clf : model_obj) (X_test : DataFrame) (Y_test : list Z) (w : world) :
  predict clf = None ->
  exists e,
    evaluate_model ext clf X_test Y_test w =
      (Raise e,
       logged ERROR ("Error: Model does not have the required methods. Details: " +:+ str e) w) /\
    exc_type e = AttributeError /\
    str e = "'" +:+ cls_name clf +:+ "' object has no attribute 'predict'".
Proof.
  intros H. exists (no_attribute (cls_name clf) "predict").
  unfold evaluate_model, evaluate_model_body, try_except, bind, call_predict. rewrite H. repeat split.
Qed.

Lemma evaluate_model_without_predict_witness :
  predict not_a_classifier = None /\
  exists e,
    evaluate_model (sample_ext sample_params) not_a_classifier
      (iloc_all_but_last sample_table) [1; 1; 0; 1]%Z sample_dir =
      (Raise e,
       logged ERROR ("Error: Model does not have the required methods. Details: " +:+ str e)
         sample_dir) /\
    exc_type e = AttributeError /\
    str e = "'" +:+ cls_name not_a_classifier +:+ "' object has no attribute 'predict'".
Proof.
  split; [reflexivity|].
  exact (evaluate_model_without_predict (sample_ext sample_params) not_a_classifier
           (iloc_all_but_last sample_table) [1; 1; 0; 1]%Z sample_dir eq_refl).
Defined.

(** C7. The auc entry of a returned mapping is [roc_auc_score] of [Y_test]
    against column 1 of what [predict_proba] returned for [X_test]: the
    second cell of each row of probabilities, not the predicted labels. *)
Theorem evaluate_model_auc_from_proba_column_1
    (ext : externals) (clf : model_obj) (X_test : DataFrame) (Y_test : list Z)
    (w w' : world) (m : list (string * pyval)) :
  evaluate_model ext clf X_test Y_test w = (Ok m, w') ->
  exists g P auc,
    predict_proba clf = Some g /\ g X_test = Ok P /\
    (1 < shape1 P)%nat /\
    sklearn.roc_auc_score Y_test (List.map (fun r => nth 1 r 0%Q) (arows P)) = Ok auc /\
    dict_get "auc" m = Some (PFloat auc).
Proof.
  intros H. apply evaluate_model_Ok in H.
  destruct H as [f g Y_pred P scores accuracy precision recall auc _ _ Hg Hgx Hcol _ _ _ Hu].
  exists g, P, auc. unfold column in Hcol.
  destruct (Nat.ltb_spec 1 (shape1 P)) as [Hlt|]; [|discriminate].
  injection Hcol as <-. repeat split; assumption || reflexivity.
Qed.

Lemma evaluate_model_auc_from_proba_column_1_witness :
  evaluate_model (sample_ext sample_params) constant_clf
    (iloc_all_but_last sample_table) [1; 1; 0; 1]%Z sample_dir
  = (Ok sample_metrics, sample_tracked) /\
  exists g P auc,
    predict_proba constant_clf = Some g /\ g (iloc_all_but_last sample_table) = Ok P /\
    (1 < shape1 P)%nat /\
    sklearn.roc_auc_score [1; 1; 0; 1]%Z (List.map (fun r => nth 1 r 0%Q) (arows P)) = Ok auc /\
    dict_get "auc" sample_metrics = Some (PFloat auc).
Proof.
  split; [exact sample_evaluation|].
  exact (evaluate_model_auc_from_proba_column_1 _ _ _ _ _ _ _ sample_evaluation).
Defined.

(** On the sample the two choices differ: the labels, all 1, rank nothing
    and would score one half, where the probabilities score 1. *)
Example auc_of_labels_differs :
  sklearn.roc_auc_score [1; 1; 0; 1]%Z [9 # 10; 8 # 10; 2 # 10; 7 # 10] = Ok (Fl (6 # 6)) /\
  sklearn.roc_auc_score [1; 1; 0; 1]%Z [1; 1; 1; 1]%Q = Ok (Fl (3 # 6)).
Proof. split; reflexivity. Qed.

(** C5, as the code has it. The row counts that [accuracy_score] compares
    are those of [Y_test] and of the predictions, and the comparison is made
    after both predictions and the parameters have been obtained. So: when
    [predict] returns one label per row of [X_test], [predict_proba] returns
    an array with a column 1 and [params.yaml] loads, a [Y_test] whose row
    count differs from that of [X_test] makes [evaluate_model] raise a
    ValueError, which the second handler logs at ERROR and re-raises; no
    mapping is returned and no tracking session is opened. *)
Theorem evaluate_model_row_count_mismatch
    (ext : externals) (clf : model_obj) (X_test : DataFrame) (Y_test : list Z) (w : world)
    (f : DataFrame -> outcome (list Z)) (Y_pred : list Z)
    (g : DataFrame -> outcome ndarray2) (P : ndarray2) (file : string) (params : pyval) :
  predict clf = Some f -> f X_test = Ok Y_pred -> length Y_pred = nrows X_test ->
  predict_proba clf = Some g -> g X_test = Ok P -> (1 < shape1 P)%nat ->
  fs w !! "params.yaml" = Some file -> yaml_safe_load ext file = Ok params ->
  length Y_test <> nrows X_test ->
  exists e,
    evaluate_model ext clf X_test Y_test w =
      (Raise e,
       logged ERROR
         ("Error: Value error in predictions or metrics calculation. Details: " +:+ str e) w) /\
    exc_type e = ValueError.
Proof.
  intros Hf Hfx Hlen Hg Hgx Hcol Hfs Hyaml Hne.
  unfold evaluate_model, evaluate_model_body, try_except, bind, call_predict, call_predict_proba, lift, column.
  rewrite Hf, Hfx, Hg, Hgx. apply Nat.ltb_lt in Hcol. rewrite Hcol.
  rewrite (load_params_eq_Ok ext _ w file params Hfs Hyaml).
  unfold sklearn.accuracy_score, sklearn.check_consistent_length.
  destruct (Nat.eqb_spec (length Y_test) (length Y_pred)) as [Heq|_]; [congruence|].
  eexists. split; reflexivity.
Qed.

Lemma evaluate_model_row_count_mismatch_witness :
  length [1; 1; 0]%Z <> nrows (iloc_all_but_last sample_table) /\
  exists e,
    evaluate_model (sample_ext sample_params) constant_clf
      (iloc_all_but_last sample_table) [1; 1; 0]%Z sample_dir =
      (Raise e,
       logged ERROR
         ("Error: Value error in predictions or metrics calculation. Details: " +:+ str e)
         sample_dir) /\
    exc_type e = ValueError.
Proof.
  split; [vm_compute; discriminate|].
  apply (evaluate_model_row_count_mismatch (sample_ext sample_params) constant_clf
           (iloc_all_but_last sample_table) [1; 1; 0]%Z sample_dir
           always_one [1; 1; 1; 1]%Z tenths
           (mkArray2 2 [[1 # 10; 9 # 10]; [2 # 10; 8 # 10]; [8 # 10; 2 # 10]; [3 # 10; 7 # 10]])
           "yaml" sample_params);
    first [reflexivity | vm_compute; lia | vm_compute; discriminate].
Defined.

(** C5 as stated fails, in two ways, with three labels against four rows.
    With a classifier that has both methods and no [params.yaml], line 83
    raises FileNotFoundError before any metric is computed, and that is what
    [evaluate_model] raises. With an object that has no [predict], line 81
    raises AttributeError. Neither is a ValueError. *)
Lemma evaluate_model_row_count_mismatch_counterexample :
  length [1; 1; 0]%Z <> nrows (iloc_all_but_last sample_table) /\
  (fst (evaluate_model (sample_ext sample_params) constant_clf
          (iloc_all_but_last sample_table) [1; 1; 0]%Z dir_without_params)
     = Raise (no_such_file "params.yaml") /\
   isinstance (no_such_file "params.yaml") ValueError = false) /\
  (fst (evaluate_model (sample_ext sample_params) not_a_classifier
          (iloc_all_but_last sample_table) [1; 1; 0]%Z sample_dir)
     = Raise (no_attribute "dict" "predict") /\
   isinstance (no_attribute "dict" "predict") ValueError = false).
Proof.
  split; [vm_compute; discriminate|]. repeat split; vm_compute; reflexivity.
Qed.

(** ** save_metrics_dict *)

(** C9. Writing is not atomic. For the mapping [unserializable_metrics],
    whose second value is a set, [save_metrics_dict] raises the encoder's
    TypeError (logged by the TypeError handler, then re-raised) after the
    file at [path] has been opened for writing: the file then holds the text
    encoded up to the offending value, whatever it held before, and exists
    even if it did not before. *)
Theorem save_metrics_dict_not_atomic (ext : externals) (w : world) (path : string) :
  open_w_error ext path = None ->
  exists e w',
    save_metrics_dict ext unserializable_metrics path w = (Raise e, w') /\
    exc_type e = TypeError /\
    errors_log w' =
      errors_log w ++ [error_record ("Error: Type error in metrics dictionary. Details: " +:+ str e)] /\
    fs w' !! path = Some (partial_dump ext) /\
    (fs w !! path <> Some (partial_dump ext) -> fs w' !! path <> fs w !! path).
Proof.
  intros Hopen.
  exists (json.not_serializable "set").
  unfold save_metrics_dict, try_except, bind, open_write, json_dump, file_write.
  rewrite Hopen. cbn [fs console errors_log tracker fst snd].
  eexists. split; [reflexivity|]. split; [reflexivity|]. split; [reflexivity|].
  assert (forall m : gmap string string,
            <[path := default EmptyString (<[path := EmptyString]> m !! path)
                        +:+ fst (json.iterencode ext 4 (PDict unserializable_metrics) 0)]>
              (<[path := EmptyString]> m) !! path = Some (partial_dump ext)) as Hpath.
  { intros m. rewrite !lookup_insert_eq. unfold partial_dump. cbn.
    now rewrite !append_assoc, append_nil_r. }
  cbn [fs logged emit snd]. split.
  - apply Hpath.
  - intros Hold. rewrite Hpath. congruence.
Qed.

Lemma save_metrics_dict_not_atomic_witness :
  open_w_error (sample_ext sample_params) "reports/metrics.json" = None /\
  exists e w',
    save_metrics_dict (sample_ext sample_params) unserializable_metrics
      "reports/metrics.json" sample_dir = (Raise e, w') /\
    exc_type e = TypeError /\
    errors_log w' =
      errors_log sample_dir
        ++ [error_record ("Error: Type error in metrics dictionary. Details: " +:+ str e)] /\
    fs w' !! "reports/metrics.json" = Some (partial_dump (sample_ext sample_params)) /\
    (fs sample_dir !! "reports/metrics.json" <> Some (partial_dump (sample_ext sample_params)) ->
     fs w' !! "reports/metrics.json" <> fs sample_dir !! "reports/metrics.json").
Proof.
  split; [reflexivity|].
  exact (save_metrics_dict_not_atomic (sample_ext sample_params) sample_dir
           "reports/metrics.json" eq_refl).
Defined.

(** ** The tracking session *)

Section TrackerEffects.

Variable ext : externals.

Lemma quiet_ret {A} (a : A) : quiet (ret a).
Proof. intros w. reflexivity. Qed.

Lemma quiet_raise {A} (e : exn) : quiet (@raise_ A e).
Proof. intros w. reflexivity. Qed.

Lemma quiet_lift {A} (o : outcome A) : quiet (lift o).
Proof. intros w. reflexivity. Qed.

Lemma quiet_emit lvl msg : quiet (emit lvl msg).
Proof. intros w. destruct lvl; reflexivity. Qed.

Lemma quiet_open_read path : quiet (open_read path).
Proof. intros w. unfold open_read. destruct (fs w !! path); reflexivity. Qed.

Lemma quiet_bind {A B} (m : M A) (k : A -> M B) :
  quiet m -> (forall a, quiet (k a)) -> quiet (bind m k).
Proof.
  intros Hm Hk w. specialize (Hm w). unfold bind.
  destruct (m w) as [[a|e] w1]; cbn [snd] in *; [|exact Hm].
  rewrite (Hk a w1). exact Hm.
Qed.

Lemma quiet_dispatch {A} e (hs : list (exc_class * (exn -> M A))) :
  Forall (fun ch => reraises (snd ch)) hs -> quiet (dispatch e hs).
Proof.
  intros Hhs w.
  destruct (dispatch_reraises e hs w Hhs) as [-> | [msg ->]]; reflexivity.
Qed.

Lemma quiet_try_except {A} (body : M A) hs :
  quiet body -> Forall (fun ch => reraises (snd ch)) hs -> quiet (try_except body hs).
Proof.
  intros Hb Hhs w. specialize (Hb w). unfold try_except.
  destruct (body w) as [[a|e] w1]; cbn [snd] in *; [exact Hb|].
  rewrite (quiet_dispatch e hs Hhs w1). exact Hb.
Qed.

Lemma quiet_load_params url : quiet (load_params ext url).
Proof.
  apply quiet_try_except; [|reraising].
  apply quiet_bind; [apply quiet_open_read | intros file].
  apply quiet_bind; [apply quiet_lift | intros params]. apply quiet_ret.
Qed.

Lemma quiet_call_predict clf X : quiet (call_predict clf X).
Proof. unfold call_predict. destruct (predict clf); [apply quiet_lift | apply quiet_raise]. Qed.

Lemma quiet_call_predict_proba clf X : quiet (call_predict_proba clf X).
Proof.
  unfold call_predict_proba.
  destruct (predict_proba clf); [apply quiet_lift | apply quiet_raise].
Qed.

Lemma quiet_items v : quiet (items v).
Proof. destruct v; first [apply quiet_ret | apply quiet_raise]. Qed.

Lemma quiet_records_only {A} (m : M A) : quiet m -> records_only m.
Proof.
  intros Hm w. exists []. rewrite app_nil_r. split; [apply Hm | constructor].
Qed.

Lemma records_only_bind {A B} (m : M A) (k : A -> M B) :
  records_only m -> (forall a, records_only (k a)) -> records_only (bind m k).
Proof.
  intros Hm Hk w. destruct (Hm w) as (evs1 & H1 & F1). unfold bind.
  destruct (m w) as [[a|e] w1]; cbn [snd] in *; [|eauto].
  destruct (Hk a w1) as (evs2 & H2 & F2).
  exists (evs1 ++ evs2). rewrite H2, H1, app_assoc. split; [reflexivity|].
  apply Forall_app; auto.
Qed.

Lemma records_only_log_metric name val : records_only (live_log_metric ext name val).
Proof.
  intros w. unfold live_log_metric. destruct (log_metric_error ext name val).
  - exists []. rewrite app_nil_r. split; [reflexivity | constructor].
  - exists [LogMetric name val]. split; [reflexivity | repeat constructor].
Qed.

Lemma records_only_log_param name val : records_only (live_log_param ext name val).
Proof.
  intros w. unfold live_log_param. destruct (log_param_error ext name val).
  - exists []. rewrite app_nil_r. split; [reflexivity | constructor].
  - exists [LogParam name val]. split; [reflexivity | repeat constructor].
Qed.

Lemma records_only_for_each {A} (xs : list A) (body : A -> M unit) :
  (forall x, records_only (body x)) -> records_only (for_each xs body).
Proof.
  intros Hb. induction xs as [|x xs IH]; cbn [for_each].
  - apply quiet_records_only, quiet_ret.
  - apply records_only_bind; [apply Hb | intros _; exact IH].
Qed.

(** The scope of [with]: once [Live(...)] has returned, [__exit__] is the
    last thing the tracker sees, however the body ends. *)
Lemma scoped_with_Live {A} b (body : M A) : records_only body -> scoped (with_Live ext b body).
Proof.
  intros Hb w. unfold with_Live, Live_enter.
  destruct (Live_init_error ext); [now apply no_session|].
  destruct (Hb (mkWorld (fs w) (console w) (errors_log w) (tracker w ++ [LiveOpen b])))
    as (evs & Hevs & Frec).
  destruct (body _) as [r w2]. cbn [snd tracker Live_exit] in *.
  apply (whole_session _ _ b evs); [|exact Frec].
  rewrite Hevs, <- !app_assoc. reflexivity.
Qed.

Lemma scoped_bind_quiet_l {A B} (m : M A) (k : A -> M B) :
  quiet m -> (forall a, scoped (k a)) -> scoped (bind m k).
Proof.
  intros Hm Hk w. specialize (Hm w). unfold bind.
  destruct (m w) as [[a|e] w1]; cbn [snd] in *.
  - rewrite <- Hm. apply Hk.
  - now apply no_session.
Qed.

Lemma scoped_bind_quiet_r {A B} (m : M A) (k : A -> M B) :
  scoped m -> (forall a, quiet (k a)) -> scoped (bind m k).
Proof.
  intros Hm Hk w. specialize (Hm w). unfold bind.
  destruct (m w) as [[a|e] w1]; cbn [snd] in *; [|exact Hm].
  now rewrite (Hk a w1).
Qed.

Lemma scoped_try_except {A} (body : M A) hs :
  scoped body -> Forall (fun ch => reraises (snd ch)) hs -> scoped (try_except body hs).
Proof.
  intros Hb Hhs w. specialize (Hb w). unfold try_except.
  destruct (body w) as [[a|e] w1]; cbn [snd] in *; [exact Hb|].
  now rewrite (quiet_dispatch e hs Hhs w1).
Qed.

Lemma session_body_records_only (accuracy precision recall auc : pyfloat) (params : pyval) :
  records_only
    (live_log_metric ext "accuracy" accuracy ;;
     live_log_metric ext "precision" precision ;;
     live_log_metric ext "recall" recall ;;
     live_log_metric ext "roc -auc score" auc ;;
     sections <- items params ;;
     for_each sections (fun '(param, value) =>
       entries <- items value ;;
       for_each entries (fun '(key, val) =>
         live_log_param ext (param +:+ "_" +:+ key) val))).
Proof.
  do 4 (apply records_only_bind; [apply records_only_log_metric | intros _]).
  apply records_only_bind; [apply quiet_records_only, quiet_items | intros sections].
  apply records_only_for_each. intros [param value].
  apply records_only_bind; [apply quiet_records_only, quiet_items | intros entries].
  apply records_only_for_each. intros [key val]. apply records_only_log_param.
Qed.

(** Once [Live(...)] has returned, the body of the [with] runs between the
    opening and the end, however it finishes. *)
Lemma with_Live_opens_and_ends {A} b (body : M A) w :
  records_only body -> Live_init_error ext = None ->
  exists records,
    Forall is_record records /\
    tracker (snd (with_Live ext b body w)) = tracker w ++ LiveOpen b :: records ++ [LiveEnd].
Proof.
  intros Hb Hinit. unfold with_Live, Live_enter. rewrite Hinit.
  destruct (Hb (mkWorld (fs w) (console w) (errors_log w) (tracker w ++ [LiveOpen b])))
    as (evs & Hevs & Frec).
  destruct (body _) as [r w2]. cbn [snd tracker Live_exit] in *.
  exists evs. split; [exact Frec|]. rewrite Hevs, <- !app_assoc. reflexivity.
Qed.

(** C8. Whatever the classifier, the libraries and the tracker do, and
    whether [evaluate_model] returns or raises, what it has added to the
    tracker when it is over is either nothing or one session whose first
    event is the opening, whose last is the end, with only metric and
    parameter records in between. And a session there is: once the steps
    before line 88 have succeeded and [Live(...)] has returned, the tracker
    has received the opening, some records and the end by the time
    [evaluate_model] is over, whatever [log_metric] and [log_param] do; one
    that raises cuts the records short but not the end. *)
Theorem evaluate_model_session_scoped
    (clf : model_obj) (X_test : DataFrame) (Y_test : list Z) (w : world) :
  one_scoped_session (tracker w) (tracker (snd (evaluate_model ext clf X_test Y_test w))) /\
  (forall m file params,
     evaluates clf X_test Y_test m ->
     fs w !! "params.yaml" = Some file -> yaml_safe_load ext file = Ok params ->
     Live_init_error ext = None ->
     exists records,
       Forall is_record records /\
       tracker (snd (evaluate_model ext clf X_test Y_test w))
       = tracker w ++ LiveOpen true :: records ++ [LiveEnd]).
Proof.
  split.
  - revert w. change (scoped (evaluate_model ext clf X_test Y_test)).
    apply scoped_try_except; [|reraising].
    apply scoped_bind_quiet_l; [apply quiet_call_predict | intros Y_pred].
    apply scoped_bind_quiet_l;
      [apply quiet_bind; [apply quiet_call_predict_proba | intros P; apply quiet_lift]
      | intros Y_pred_proba].
    apply scoped_bind_quiet_l; [apply quiet_load_params | intros params].
    do 4 (apply scoped_bind_quiet_l; [apply quiet_lift | intros ?]).
    apply scoped_bind_quiet_r; [|intros _; apply quiet_ret].
    apply scoped_with_Live. apply session_body_records_only.
  - intros m file params Hev Hfs Hyaml Hinit.
    destruct Hev as [f g Y_pred P scores accuracy precision recall auc
                       Hf Hfx Hg Hgx Hcol Ha Hp Hr Hu].
    destruct (with_Live_opens_and_ends true _ w
                (session_body_records_only accuracy precision recall auc params) Hinit)
      as (records & Frec & Htracker).
    exists records. split; [exact Frec|]. rewrite <- Htracker.
    unfold evaluate_model, evaluate_model_body, try_except.
    assert (call_predict clf X_test w = (Ok Y_pred, w)) as H1
      by (unfold call_predict, lift; now rewrite Hf, Hfx).
    assert ((P <- call_predict_proba clf X_test ;; lift (column P 1)) w = (Ok scores, w)) as H2
      by (unfold bind, call_predict_proba, lift; now rewrite Hg, Hgx, Hcol).
    rewrite (bind_eq_Ok _ _ _ _ _ H1), (bind_eq_Ok _ _ _ _ _ H2).
    rewrite (bind_eq_Ok _ _ _ _ _ (load_params_eq_Ok ext _ w file params Hfs Hyaml)).
    rewrite (bind_eq_Ok _ _ w accuracy w (f_equal (fun o => (o, w)) Ha)).
    rewrite (bind_eq_Ok _ _ w precision w (f_equal (fun o => (o, w)) Hp)).
    rewrite (bind_eq_Ok _ _ w recall w (f_equal (fun o => (o, w)) Hr)).
    rewrite (bind_eq_Ok _ _ w auc w (f_equal (fun o => (o, w)) Hu)).
    unfold bind at 1.
    destruct (with_Live ext true _ w) as [[u|e] w2]; cbn [snd]; [reflexivity|].
    apply quiet_dispatch. reraising.
Qed.

End TrackerEffects.

Lemma evaluate_model_session_scoped_witness :
  evaluates constant_clf (iloc_all_but_last sample_table) [1; 1; 0; 1]%Z sample_metrics /\
  log_metric_error refusing_ext "precision" (Fl (3 # 4))
  = Some (mkExn (Custom "InvalidDataTypeError" [Custom "DvcLiveError" []])
            "Data 'precision' has not supported type") /\
  exists records,
    Forall is_record records /\
    tracker (snd (evaluate_model refusing_ext constant_clf (iloc_all_but_last sample_table)
                    [1; 1; 0; 1]%Z sample_dir))
    = tracker sample_dir ++ LiveOpen true :: records ++ [LiveEnd].
Proof.
  pose proof (evaluate_model_Ok _ _ _ _ _ _ _ sample_evaluation) as Hev.
  split; [exact Hev|]. split; [reflexivity|].
  exact (proj2 (evaluate_model_session_scoped refusing_ext constant_clf
                  (iloc_all_but_last sample_table) [1; 1; 0; 1]%Z sample_dir)
           sample_metrics "yaml" sample_params Hev eq_refl eq_refl eq_refl).
Defined.

(** A [log_metric] that raises inside the scope: the session is ended all
    the same, and the failure leaves through the last handler. *)
Example session_ended_when_log_metric_raises :
  evaluate_model refusing_ext constant_clf (iloc_all_but_last sample_table)
    [1; 1; 0; 1]%Z sample_dir
  = (Raise (mkExn (Custom "InvalidDataTypeError" [Custom "DvcLiveError" []])
              "Data 'precision' has not supported type"),
     mkWorld (fs sample_dir)
       [error_record "An unexpected error occurred while evaluating the model: Data 'precision' has not supported type"]
       [error_record "An unexpected error occurred while evaluating the model: Data 'precision' has not supported type"]
       [LiveOpen true; LogMetric "accuracy" (Fl (3 # 4)); LiveEnd]).
Proof. vm_compute. reflexivity. Qed.

(** ** Parameter flattening *)

Lemma track_nil w : track [] w = w.
Proof. destruct w. unfold track. cbn. now rewrite app_nil_r. Qed.

Lemma track_track evs1 evs2 w : track evs2 (track evs1 w) = track (evs1 ++ evs2) w.
Proof. unfold track. cbn. now rewrite app_assoc. Qed.

Section AcceptingTracker.

Variable ext : externals.
Hypothesis metrics_accepted : forall name val, log_metric_error ext name val = None.
Hypothesis params_accepted : forall name val, log_param_error ext name val = None.

Lemma live_log_metric_accepted name val w :
  live_log_metric ext name val w = (Ok tt, track [LogMetric name val] w).
Proof. unfold live_log_metric. now rewrite metrics_accepted. Qed.

Lemma live_log_param_accepted name val w :
  live_log_param ext name val w = (Ok tt, track [LogParam name val] w).
Proof. unfold live_log_param. now rewrite params_accepted. Qed.

(** The inner loop (lines 95-96) over the entries of one section. *)
Lemma log_entries_accepted (param : string) (entries : list (string * pyval)) w :
  exists records,
    Forall is_record records /\
    for_each entries (fun '(key, val) => live_log_param ext (param +:+ "_" +:+ key) val) w
      = (Ok tt, track records w).
Proof.
  revert w. induction entries as [|[key val] entries IH]; intros w; cbn [for_each].
  - exists []. now rewrite track_nil.
  - destruct (IH (track [LogParam (param +:+ "_" +:+ key) val] w)) as (records & Frec & Hrun).
    exists (LogParam (param +:+ "_" +:+ key) val :: records). split; [now constructor|].
    rewrite (bind_eq_Ok _ _ _ _ _ (live_log_param_accepted _ _ _)), Hrun.
    now rewrite track_track.
Qed.

(** The outer loop (line 94) stops at the first section that is not a
    mapping, with the AttributeError of [value.items]. *)
Lemma log_sections_raises (sections : list (string * pyval)) w :
  Exists (fun kv => forall entries, snd kv <> PDict entries) sections ->
  exists v records,
    In v (List.map snd sections) /\ (forall entries, v <> PDict entries) /\
    Forall is_record records /\
    for_each sections (fun '(param, value) =>
        entries <- items value ;;
        for_each entries (fun '(key, val) =>
          live_log_param ext (param +:+ "_" +:+ key) val)) w
      = (Raise (no_attribute (type_name v) "items"), track records w).
Proof.
  revert w. induction sections as [|[param value] sections IH]; intros w HE.
  - inversion HE.
  - assert ((forall entries, value <> PDict entries) \/ exists entries, value = PDict entries)
      as [Hscalar | [entries ->]]
      by (destruct value; eauto; left; discriminate).
    + exists value, []. rewrite track_nil.
      split; [now left|]. split; [exact Hscalar|]. split; [constructor|].
      cbn [for_each]. apply bind_eq_Raise, bind_eq_Raise.
      destruct value; try reflexivity. now destruct (Hscalar entries).
    + assert (Exists (fun kv => forall entries, snd kv <> PDict entries) sections) as HE'.
      { inversion HE as [? ? Hhd | ? ? Htl]; [now destruct (Hhd entries) | exact Htl]. }
      destruct (log_entries_accepted param entries w) as (rec1 & F1 & Hrun1).
      destruct (IH (track rec1 w) HE') as (v & rec2 & Hin & Hv & F2 & Hrun2).
      exists v, (rec1 ++ rec2).
      split; [now right|]. split; [exact Hv|]. split; [now apply Forall_app|].
      cbn [for_each]. unfold bind at 1. unfold bind at 1. cbn [items ret].
      rewrite Hrun1, Hrun2. now rewrite track_track.
Qed.

(** When every section is a mapping, the outer loop runs to its end. *)
Lemma log_sections_accepted (sections : list (string * pyval)) w :
  Forall (fun kv => exists entries, snd kv = PDict entries) sections ->
  exists records,
    Forall is_record records /\
    for_each sections (fun '(param, value) =>
        entries <- items value ;;
        for_each entries (fun '(key, val) =>
          live_log_param ext (param +:+ "_" +:+ key) val)) w
      = (Ok tt, track records w).
Proof.
  revert w. induction sections as [|[param value] sections IH]; intros w HF.
  - exists []. now rewrite track_nil.
  - apply Forall_cons in HF as [[entries Hvalue] HF]. cbn [snd] in Hvalue. subst value.
    destruct (log_entries_accepted param entries w) as (rec1 & F1 & Hrun1).
    destruct (IH (track rec1 w) HF) as (rec2 & F2 & Hrun2).
    exists (rec1 ++ rec2). split; [now apply Forall_app|].
    cbn [for_each]. unfold bind at 1. unfold bind at 1. cbn [items ret].
    rewrite Hrun1, Hrun2. now rewrite track_track.
Qed.

End AcceptingTracker.

(** The converse of [evaluate_model_Ok]: once the metrics are computed, a
    [params.yaml] made of sections and a tracker that accepts every call
    are all it takes for the mapping to be returned. *)
Lemma evaluate_model_returns
    (ext : externals) (clf : model_obj) (X_test : DataFrame) (Y_test : list Z) (w : world)
    (m : list (string * pyval)) (file : string) (sections : list (string * pyval)) :
  evaluates clf X_test Y_test m ->
  fs w !! "params.yaml" = Some file ->
  yaml_safe_load ext file = Ok (PDict sections) ->
  Forall (fun kv => exists entries, snd kv = PDict entries) sections ->
  Live_init_error ext = None ->
  (forall name val, log_metric_error ext name val = None) ->
  (forall name val, log_param_error ext name val = None) ->
  exists records,
    Forall is_record records /\
    evaluate_model ext clf X_test Y_test w =
      (Ok m, track (LiveOpen true :: records ++ [LiveEnd]) w).
Proof.
  intros Hev Hfs Hyaml HF Hinit Hmetric Hparam.
  destruct Hev as [f g Y_pred P scores accuracy precision recall auc
                     Hf Hfx Hg Hgx Hcol Ha Hp Hr Hu].
  set (w1 := track [ LiveOpen true;
                     LogMetric "accuracy" accuracy; LogMetric "precision" precision;
                     LogMetric "recall" recall; LogMetric "roc -auc score" auc ] w).
  destruct (log_sections_accepted ext Hparam sections w1 HF) as (records & Frec & Hloop).
  exists ([ LogMetric "accuracy" accuracy; LogMetric "precision" precision;
            LogMetric "recall" recall; LogMetric "roc -auc score" auc ] ++ records).
  split; [repeat constructor; exact Frec|].
  unfold evaluate_model, evaluate_model_body, try_except, bind, call_predict, call_predict_proba, lift.
  rewrite Hf, Hfx, Hg, Hgx, Hcol.
  rewrite (load_params_eq_Ok ext _ w file _ Hfs Hyaml).
  rewrite Ha, Hp, Hr, Hu.
  unfold with_Live, Live_enter. rewrite Hinit.
  unfold live_log_metric. rewrite !Hmetric. cbn [items ret fs console errors_log tracker].
  rewrite <- !app_assoc. cbn [app].
  fold (bind (A := list (string * pyval)) (B := unit)).
  change (mkWorld (fs w) (console w) (errors_log w) _) with w1.
  unfold bind in Hloop. rewrite Hloop.
  unfold ret, track, w1, track. cbn. now rewrite <- !app_assoc.
Qed.

(** On a table of 0/1 labels with both classes present, a classifier that
    answers with 0/1 labels and one probability row per label, parameters
    made of sections and an accepting tracker, [evaluate_model] returns,
    and the four values are between 0 and 1. *)
Corollary evaluate_model_on_binary_labels
    (ext : externals) (clf : model_obj) (X_test : DataFrame) (Y_test : list Z) (w : world)
    (f : DataFrame -> outcome (list Z)) (Y_pred : list Z)
    (g : DataFrame -> outcome ndarray2) (P : ndarray2)
    (file : string) (sections : list (string * pyval)) :
  binary_labels Y_test -> In 0%Z Y_test -> In 1%Z Y_test ->
  predict clf = Some f -> f X_test = Ok Y_pred ->
  binary_labels Y_pred -> length Y_pred = length Y_test ->
  predict_proba clf = Some g -> g X_test = Ok P ->
  (1 < shape1 P)%nat -> length (arows P) = length Y_test ->
  fs w !! "params.yaml" = Some file ->
  yaml_safe_load ext file = Ok (PDict sections) ->
  Forall (fun kv => exists entries, snd kv = PDict entries) sections ->
  Live_init_error ext = None ->
  (forall name val, log_metric_error ext name val = None) ->
  (forall name val, log_param_error ext name val = None) ->
  exists accuracy precision recall auc w',
    evaluate_model ext clf X_test Y_test w =
      (Ok [ ("accuracy", PFloat accuracy); ("precision", PFloat precision);
            ("recall", PFloat recall); ("auc", PFloat auc) ], w') /\
    in_unit_interval accuracy /\ in_unit_interval precision /\
    in_unit_interval recall /\ in_unit_interval auc.
Proof.
  intros Ht H0 H1 Hf Hfx Hp Hlp Hg Hgx Hcol Hls Hfs Hyaml HF Hinit Hmetric Hparam.
  destruct (sklearn_facts.binary_scores_defined Y_test Y_pred
              (List.map (fun r => nth 1 r 0%Q) (arows P)) Ht Hp H0 H1 Hlp)
    as (accuracy & precision & recall & auc & Ha & Hpr & Hr & Hu).
  { now rewrite length_map. }
  assert (column P 1 = Ok (List.map (fun r => nth 1 r 0%Q) (arows P))) as Hc.
  { unfold column. apply Nat.ltb_lt in Hcol. now rewrite Hcol. }
  pose proof (evaluates_intro clf X_test Y_test _ _ _ _ _ _ _ _ _
                Hf Hfx Hg Hgx Hc Ha Hpr Hr Hu) as Hev.
  destruct (evaluate_model_returns ext clf X_test Y_test w _ file sections
              Hev Hfs Hyaml HF Hinit Hmetric Hparam) as (records & _ & Hrun).
  exists accuracy, precision, recall, auc. eexists. split; [exact Hrun|].
  destruct (sklearn_facts.roc_auc_score_Ok _ _ _ Hu) as [[_ Hauc] | [Hone _]].
  - repeat split;
      eauto using sklearn_facts.accuracy_score_unit, sklearn_facts.precision_score_unit,
                  sklearn_facts.recall_score_unit.
  - destruct (sklearn_facts.unique_both_classes Y_test Ht H0 H1) as (a & b & Hab).
    rewrite Hab in Hone. discriminate.
Qed.

(** C10. Say the classifier has both methods and the four metrics of
    [Y_test] are computed ([evaluates]), [params.yaml] loads as a mapping one
    of whose top-level values is not itself a mapping, and the tracker
    accepts every call. Then [evaluate_model] raises the AttributeError of
    [value.items] on that value; the handler written for a classifier
    without the required methods logs it and re-raises it; no mapping is
    returned, although the session, ended by then, has the four metrics. *)
Theorem evaluate_model_scalar_section
    (ext : externals) (clf : model_obj) (X_test : DataFrame) (Y_test : list Z) (w : world)
    (m : list (string * pyval)) (file : string) (sections : list (string * pyval)) :
  evaluates clf X_test Y_test m ->
  fs w !! "params.yaml" = Some file ->
  yaml_safe_load ext file = Ok (PDict sections) ->
  Exists (fun kv => forall entries, snd kv <> PDict entries) sections ->
  Live_init_error ext = None ->
  (forall name val, log_metric_error ext name val = None) ->
  (forall name val, log_param_error ext name val = None) ->
  exists e w',
    evaluate_model ext clf X_test Y_test w = (Raise e, w') /\
    exc_type e = AttributeError /\
    (exists v, In v (List.map snd sections) /\ (forall entries, v <> PDict entries) /\
               e = no_attribute (type_name v) "items") /\
    errors_log w' =
      errors_log w ++
      [error_record ("Error: Model does not have the required methods. Details: " +:+ str e)] /\
    exists accuracy precision recall auc records,
      m = [ ("accuracy", PFloat accuracy); ("precision", PFloat precision);
            ("recall", PFloat recall); ("auc", PFloat auc) ] /\
      tracker w' =
        tracker w ++
        LiveOpen true ::
        [ LogMetric "accuracy" accuracy; LogMetric "precision" precision;
          LogMetric "recall" recall; LogMetric "roc -auc score" auc ]
        ++ records ++ [LiveEnd].
Proof.
  intros Hev Hfs Hyaml HE Hinit Hmetric Hparam.
  destruct Hev as [f g Y_pred P scores accuracy precision recall auc
                     Hf Hfx Hg Hgx Hcol Ha Hp Hr Hu].
  set (w1 := track [ LiveOpen true;
                     LogMetric "accuracy" accuracy; LogMetric "precision" precision;
                     LogMetric "recall" recall; LogMetric "roc -auc score" auc ] w).
  destruct (log_sections_raises ext Hparam sections w1 HE)
    as (v & records & Hin & Hv & Frec & Hloop).
  exists (no_attribute (type_name v) "items").
  unfold evaluate_model, evaluate_model_body, try_except, bind, call_predict, call_predict_proba, lift.
  rewrite Hf, Hfx, Hg, Hgx, Hcol.
  rewrite (load_params_eq_Ok ext _ w file _ Hfs Hyaml).
  rewrite Ha, Hp, Hr, Hu.
  unfold with_Live, Live_enter. rewrite Hinit.
  unfold live_log_metric. rewrite !Hmetric. cbn [items ret fs console errors_log tracker].
  rewrite <- !app_assoc. cbn [app].
  fold (bind (A := list (string * pyval)) (B := unit)).
  change (mkWorld (fs w) (console w) (errors_log w) _) with w1.
  unfold bind in Hloop. rewrite Hloop.
  eexists. split; [reflexivity|]. split; [reflexivity|].
  split; [exists v; auto|]. split; [reflexivity|].
  exists accuracy, precision, recall, auc, records. split; [reflexivity|].
  cbn. now rewrite <- !app_assoc.
Qed.

Lemma evaluate_model_scalar_section_witness :
  evaluates constant_clf (iloc_all_but_last sample_table) [1; 1; 0; 1]%Z sample_metrics /\
  Exists (fun kv => forall entries, snd kv <> PDict entries) params_with_scalar /\
  exists e w',
    evaluate_model (sample_ext (PDict params_with_scalar)) constant_clf
      (iloc_all_but_last sample_table) [1; 1; 0; 1]%Z sample_dir = (Raise e, w') /\
    exc_type e = AttributeError /\
    (exists v, In v (List.map snd params_with_scalar) /\ (forall entries, v <> PDict entries) /\
               e = no_attribute (type_name v) "items") /\
    errors_log w' =
      errors_log sample_dir ++
      [error_record ("Error: Model does not have the required methods. Details: " +:+ str e)] /\
    exists accuracy precision recall auc records,
      sample_metrics =
        [ ("accuracy", PFloat accuracy); ("precision", PFloat precision);
          ("recall", PFloat recall); ("auc", PFloat auc) ] /\
      tracker w' =
        tracker sample_dir ++
        LiveOpen true ::
        [ LogMetric "accuracy" accuracy; LogMetric "precision" precision;
          LogMetric "recall" recall; LogMetric "roc -auc score" auc ]
        ++ records ++ [LiveEnd].
Proof.
  assert (Exists (fun kv : string * pyval => forall entries, snd kv <> PDict entries)
            params_with_scalar) as HE.
  { apply Exists_cons_tl, Exists_cons_hd. intros entries. discriminate. }
  pose proof (evaluate_model_Ok _ _ _ _ _ _ _ sample_evaluation) as Hev.
  split; [exact Hev|]. split; [exact HE|].
  exact (evaluate_model_scalar_section (sample_ext (PDict params_with_scalar)) constant_clf
           (iloc_all_but_last sample_table) [1; 1; 0; 1]%Z sample_dir sample_metrics
           "yaml" params_with_scalar Hev eq_refl eq_refl HE eq_refl
           (fun _ _ => eq_refl) (fun _ _ => eq_refl)).
Defined.

(** ** The loaders *)

(** A [try] whose last clause is [except Exception] and whose clauses all
    log and re-raise: the failure leaves as it came, one ERROR record later. *)
Lemma dispatch_logged {A} (e : exn) (hs : list (exc_class * (exn -> M A))) w :
  Forall (fun ch => reraises (snd ch)) hs ->
  Exists (fun ch => fst ch = Exception) hs ->
  exists msg, dispatch e hs w = (Raise e, logged ERROR msg w).
Proof.
  induction 1 as [|[c h] hs Hh _ IH]; intros HE; [inversion HE|].
  cbn [dispatch]. destruct (isinstance e c) eqn:Hc; [apply Hh|].
  apply IH. inversion HE as [? ? Hhd | ? ? Htl]; [|exact Htl].
  cbn [fst] in Hhd. subst c. now rewrite isinstance_Exception in Hc.
Qed.

Lemma isinstance_no_such_file path : isinstance (no_such_file path) FileNotFoundError = true.
Proof. reflexivity. Qed.

(** The shape shared by the three loaders: open, read, parse, return. *)
Lemma read_and_parse {A} (parse : string -> outcome A) path hs w :
  Forall (fun ch => reraises (snd ch)) hs ->
  Exists (fun ch => fst ch = Exception) hs ->
  match fs w !! path with
  | None =>
      try_except (file <- open_read path ;; v <- lift (parse file) ;; ret v) hs w
      = dispatch (no_such_file path) hs w /\
      exists msg, dispatch (no_such_file path) hs w
                  = (Raise (no_such_file path), logged ERROR msg w)
  | Some file =>
      match parse file with
      | Ok v => try_except (file <- open_read path ;; v <- lift (parse file) ;; ret v) hs w
                = (Ok v, w)
      | Raise e =>
          try_except (file <- open_read path ;; v <- lift (parse file) ;; ret v) hs w
          = dispatch e hs w /\
          exists msg, dispatch e hs w = (Raise e, logged ERROR msg w)
      end
  end.
Proof.
  intros Hhs HE. unfold try_except, bind, open_read, lift.
  destruct (fs w !! path) as [file|].
  - destruct (parse file) as [v|e]; [reflexivity|].
    split; [reflexivity | now apply dispatch_logged].
  - split; [reflexivity | now apply dispatch_logged].
Qed.

Ltac last_is_Exception :=
  repeat first [ apply Exists_cons_hd; reflexivity | apply Exists_cons_tl ].

Lemma read_and_parse_Ok_iff {A} (parse : string -> outcome A) path hs w v w' :
  Forall (fun ch => reraises (snd ch)) hs ->
  Exists (fun ch => fst ch = Exception) hs ->
  try_except (file <- open_read path ;; v <- lift (parse file) ;; ret v) hs w = (Ok v, w') <->
  w' = w /\ exists file, fs w !! path = Some file /\ parse file = Ok v.
Proof.
  intros Hhs HE. pose proof (read_and_parse parse path hs w Hhs HE) as Hrun.
  destruct (fs w !! path) as [file|].
  - destruct (parse file) as [v0|e] eqn:Hp.
    + rewrite Hrun. split.
      * intros [= <- <-]. eauto.
      * intros [-> (file' & [= <-] & Hp')]. congruence.
    + destruct Hrun as [-> (msg & ->)]. split; [discriminate|].
      intros [_ (file' & [= <-] & Hp')]. congruence.
  - destruct Hrun as [-> (msg & ->)]. split; [discriminate|].
    intros [_ (file' & Hfs & _)]. discriminate.
Qed.

Lemma open_read_world path w o w' : open_read path w = (o, w') -> w' = w.
Proof. unfold open_read. destruct (fs w !! path); now intros [= _ <-]. Qed.

(** What the [try] of a loader raises is what opening or parsing raised,
    handed to the handlers. *)
Lemma read_and_parse_Raise_iff {A} (parse : string -> outcome A) path hs w e w' :
  Forall (fun ch => reraises (snd ch)) hs ->
  try_except (file <- open_read path ;; v <- lift (parse file) ;; ret v) hs w = (Raise e, w') <->
  (open_read path w = (Raise e, w)
   \/ exists file, open_read path w = (Ok file, w) /\ parse file = Raise e) /\
  dispatch e hs w = (Raise e, w').
Proof.
  intros Hhs. unfold try_except, bind, lift.
  destruct (open_read path w) as [[file|e0] w0] eqn:Hopen;
    pose proof (open_read_world _ _ _ _ Hopen) as ->.
  - destruct (parse file) as [v|e1] eqn:Hp.
    + cbn. split; [discriminate|]. intros [[[=] | (file' & [= <-] & Hp')] _]. congruence.
    + cbn. split.
      * intros H. destruct (dispatch_reraises e1 hs w Hhs) as [Hd | [msg Hd]];
          rewrite Hd in H; injection H as <- <-; split; eauto.
      * intros [[[=] | (file' & [= <-] & Hp')] Hd].
        rewrite Hp in Hp'. injection Hp' as ->. exact Hd.
  - split.
    + intros H. destruct (dispatch_reraises e0 hs w Hhs) as [Hd | [msg Hd]];
        rewrite Hd in H; injection H as <- <-; split; auto.
    + intros [[[= ->] | (file' & [=] & _)] Hd]. exact Hd.
Qed.

Lemma read_and_parse_Ok_open_iff {A} (parse : string -> outcome A) path hs w v w' :
  Forall (fun ch => reraises (snd ch)) hs ->
  try_except (file <- open_read path ;; v <- lift (parse file) ;; ret v) hs w = (Ok v, w') <->
  w' = w /\ exists file, open_read path w = (Ok file, w) /\ parse file = Ok v.
Proof.
  intros Hhs. unfold try_except, bind, lift.
  destruct (open_read path w) as [[file|e0] w0] eqn:Hopen;
    pose proof (open_read_world _ _ _ _ Hopen) as ->.
  - destruct (parse file) as [v0|e1] eqn:Hp.
    + cbn. split; [intros [= <- <-]; eauto|]. intros [-> (file' & [= <-] & Hp')]. congruence.
    + cbn. split; [|intros [_ (file' & [= <-] & Hp')]; congruence].
      intros H. destruct (dispatch_reraises e1 hs w Hhs) as [Hd | [msg Hd]];
        rewrite Hd in H; discriminate.
  - split; [|intros [_ (file' & [=] & _)]].
    intros H. destruct (dispatch_reraises e0 hs w Hhs) as [Hd | [msg Hd]];
      rewrite Hd in H; discriminate.
Qed.

(** X1. [load_params] returns [params] exactly when opening and reading the
    file succeeds and [yaml.safe_load] returns [params], and then nothing
    is logged and nothing changes. It raises [e] exactly when opening or the
    parser raised that same [e]; the only effect is then one ERROR record
    in both logs, chosen by the class of [e]: the not-found line for a
    [FileNotFoundError], else the YAML line for a [YAMLError], else the
    key line for a [KeyError], else the unexpected-error line. *)
Theorem load_params_spec (ext : externals) (url : string) (w : world) :
  (forall params w',
     load_params ext url w = (Ok params, w') <->
     w' = w /\
     exists file, open_read url w = (Ok file, w) /\ yaml_safe_load ext file = Ok params) /\
  (forall e w',
     load_params ext url w = (Raise e, w') <->
     (open_read url w = (Raise e, w)
      \/ exists file, open_read url w = (Ok file, w) /\ yaml_safe_load ext file = Raise e) /\
     w' = logged ERROR
            (if isinstance e FileNotFoundError
             then "Error: The file " +:+ url +:+ " was not found."
             else if isinstance e YAMLError
             then "Error parsing YAML file: " +:+ str e
             else if isinstance e KeyError
             then "Error: 'model_building', 'n_estimators', or 'learning_rate' key not found in params."
             else "An unexpected error occurred while loading parameters: " +:+ str e) w).
Proof.
  split.
  - intros params w'. apply read_and_parse_Ok_open_iff. reraising.
  - intros e w'. unfold load_params. rewrite read_and_parse_Raise_iff by reraising.
    apply and_iff_compat_l. cbn [dispatch].
    destruct (isinstance e FileNotFoundError);
      [rewrite logger_error_reraise; split; [now intros [= <-] | now intros ->]|].
    destruct (isinstance e YAMLError);
      [rewrite logger_error_reraise; split; [now intros [= <-] | now intros ->]|].
    destruct (isinstance e KeyError);
      [rewrite logger_error_reraise; split; [now intros [= <-] | now intros ->]|].
    rewrite isinstance_Exception, logger_error_reraise.
    split; [now intros [= <-] | now intros ->].
Qed.

Lemma load_params_spec_witness :
  open_read "params.yaml" empty_dir = (Raise (no_such_file "params.yaml"), empty_dir) /\
  load_params (sample_ext sample_params) "params.yaml" empty_dir
  = (Raise (no_such_file "params.yaml"),
     logged ERROR "Error: The file params.yaml was not found." empty_dir).
Proof.
  split; [reflexivity|].
  apply (proj2 (load_params_spec (sample_ext sample_params) "params.yaml" empty_dir)).
  split; [left; reflexivity | reflexivity].
Defined.

(** X2. [load_model] returns [clf] exactly when opening and reading the
    file succeeds and [pickle.load] returns [clf], without logging or
    changing anything. It raises [e] exactly when opening or [pickle.load]
    raised that same [e]; the only effect is then one ERROR record in both
    logs, chosen by the class of [e]: the not-found line for a
    [FileNotFoundError], else the could-not-be-unpickled line for an
    [UnpicklingError], else the unexpected-error line. *)
Theorem load_model_spec (ext : externals) (url : string) (w : world) :
  (forall clf w',
     load_model ext url w = (Ok clf, w') <->
     w' = w /\
     exists file, open_read url w = (Ok file, w) /\ pickle_load ext file = Ok clf) /\
  (forall e w',
     load_model ext url w = (Raise e, w') <->
     (open_read url w = (Raise e, w)
      \/ exists file, open_read url w = (Ok file, w) /\ pickle_load ext file = Raise e) /\
     w' = logged ERROR
            (if isinstance e FileNotFoundError
             then "Error: The file " +:+ url +:+ " was not found."
             else if isinstance e UnpicklingError
             then "Error: The file could not be unpickled. It may not be a valid pickle file."
             else "An unexpected error occurred while loading the model: " +:+ str e) w).
Proof.
  split.
  - intros clf w'. apply read_and_parse_Ok_open_iff. reraising.
  - intros e w'. unfold load_model. rewrite read_and_parse_Raise_iff by reraising.
    apply and_iff_compat_l. cbn [dispatch].
    destruct (isinstance e FileNotFoundError);
      [rewrite logger_error_reraise; split; [now intros [= <-] | now intros ->]|].
    destruct (isinstance e UnpicklingError);
      [rewrite logger_error_reraise; split; [now intros [= <-] | now intros ->]|].
    rewrite isinstance_Exception, logger_error_reraise.
    split; [now intros [= <-] | now intros ->].
Qed.

Lemma load_model_spec_witness :
  open_read "models/model.pkl" empty_dir
  = (Raise (no_such_file "models/model.pkl"), empty_dir) /\
  load_model (sample_ext sample_params) "models/model.pkl" empty_dir
  = (Raise (no_such_file "models/model.pkl"),
     logged ERROR "Error: The file models/model.pkl was not found." empty_dir).
Proof.
  split; [reflexivity|].
  apply (proj2 (load_model_spec (sample_ext sample_params) "models/model.pkl" empty_dir)).
  split; [left; reflexivity | reflexivity].
Defined.

(** X3. [load_data] reads [test_bow.csv] under [datapath]: it returns the
    table exactly when opening and reading that file succeeds and
    [pd.read_csv] returns the table, without logging or changing anything.
    It raises [e] exactly when opening or the parser raised that same [e];
    the only effect is then one ERROR record in both logs, chosen by the
    class of [e]: for a [FileNotFoundError] the line that names [datapath]
    and quotes [e], else the empty-file line for pandas' [EmptyDataError],
    else the parsing line for its [ParserError], else the unexpected-error
    line. *)
Theorem load_data_spec (ext : externals) (datapath : string) (w : world) :
  let path := os_path_join datapath "test_bow.csv" in
  (forall test_data w',
     load_data ext datapath w = (Ok test_data, w') <->
     w' = w /\
     exists file, open_read path w = (Ok file, w) /\ pd_read_csv ext file = Ok test_data) /\
  (forall e w',
     load_data ext datapath w = (Raise e, w') <->
     (open_read path w = (Raise e, w)
      \/ exists file, open_read path w = (Ok file, w) /\ pd_read_csv ext file = Raise e) /\
     w' = logged ERROR
            (if isinstance e FileNotFoundError
             then "Error: File not found in path " +:+ datapath +:+ ". Details: " +:+ str e
             else if isinstance e EmptyDataError
             then "Error: The CSV file is empty."
             else if isinstance e ParserError
             then "Error: Error parsing the CSV file."
             else "An unexpected error occurred while loading data: " +:+ str e) w).
Proof.
  intros path. split.
  - intros td w'. apply read_and_parse_Ok_open_iff. reraising.
  - intros e w'. unfold load_data. fold path. rewrite read_and_parse_Raise_iff by reraising.
    apply and_iff_compat_l. cbn [dispatch].
    destruct (isinstance e FileNotFoundError);
      [rewrite logger_error_reraise; split; [now intros [= <-] | now intros ->]|].
    destruct (isinstance e EmptyDataError);
      [rewrite logger_error_reraise; split; [now intros [= <-] | now intros ->]|].
    destruct (isinstance e ParserError);
      [rewrite logger_error_reraise; split; [now intros [= <-] | now intros ->]|].
    rewrite isinstance_Exception, logger_error_reraise.
    split; [now intros [= <-] | now intros ->].
Qed.

Lemma load_data_spec_witness :
  open_read "data/processed/test_bow.csv" empty_dir
  = (Raise (no_such_file "data/processed/test_bow.csv"), empty_dir) /\
  load_data (sample_ext sample_params) "data/processed" empty_dir
  = (Raise (no_such_file "data/processed/test_bow.csv"),
     logged ERROR "Error: File not found in path data/processed. Details: [Errno 2] No such file or directory: 'data/processed/test_bow.csv'" empty_dir).
Proof.
  split; [reflexivity|].
  apply (proj2 (load_data_spec (sample_ext sample_params) "data/processed" empty_dir)).
  split; [left; reflexivity | reflexivity].
Defined.

(** ** Footprints of the stages

    One walk through the code for any relation that is reflexive and
    transitive, holds across a log record and a tracker call, and across a
    write to the paths in [writable]. *)
Section Footprint.

Variable ext : externals.
Variable R : world -> world -> Prop.
Variable writable : string -> Prop.
Hypothesis R_refl : forall w, R w w.
Hypothesis R_trans : forall w1 w2 w3, R w1 w2 -> R w2 w3 -> R w1 w3.
Hypothesis R_logged : forall lvl msg w, R w (logged lvl msg w).
Hypothesis R_track : forall evs w, R w (track evs w).
Hypothesis R_set_file : forall path content w, writable path -> R w (set_file path content w).

Lemma respects_ret {A} (a : A) : respects R (ret a).
Proof. intros w. apply R_refl. Qed.

Lemma respects_raise {A} (e : exn) : respects R (@raise_ A e).
Proof. intros w. apply R_refl. Qed.

Lemma respects_lift {A} (o : outcome A) : respects R (lift o).
Proof. intros w. apply R_refl. Qed.

Lemma respects_emit lvl msg : respects R (emit lvl msg).
Proof. intros w. apply R_logged. Qed.

Lemma respects_open_read path : respects R (open_read path).
Proof. intros w. unfold open_read. destruct (fs w !! path); apply R_refl. Qed.

Lemma respects_bind {A B} (m : M A) (k : A -> M B) :
  respects R m -> (forall a, respects R (k a)) -> respects R (bind m k).
Proof.
  intros Hm Hk w. specialize (Hm w). unfold bind.
  destruct (m w) as [[a|e] w1]; cbn [snd] in *; [|exact Hm].
  exact (R_trans _ _ _ Hm (Hk a w1)).
Qed.

Lemma respects_dispatch {A} e (hs : list (exc_class * (exn -> M A))) :
  Forall (fun ch => reraises (snd ch)) hs -> respects R (dispatch e hs).
Proof.
  intros Hhs w.
  destruct (dispatch_reraises e hs w Hhs) as [-> | [msg ->]]; [apply R_refl | apply R_logged].
Qed.

Lemma respects_try_except {A} (body : M A) hs :
  respects R body -> Forall (fun ch => reraises (snd ch)) hs -> respects R (try_except body hs).
Proof.
  intros Hb Hhs w. specialize (Hb w). unfold try_except.
  destruct (body w) as [[a|e] w1]; cbn [snd] in *; [exact Hb|].
  exact (R_trans _ _ _ Hb (respects_dispatch e hs Hhs w1)).
Qed.

Lemma respects_for_each {A} (xs : list A) (body : A -> M unit) :
  (forall x, respects R (body x)) -> respects R (for_each xs body).
Proof.
  intros Hb. induction xs as [|x xs IH]; cbn [for_each].
  - apply respects_ret.
  - apply respects_bind; [apply Hb | intros _; exact IH].
Qed.

Lemma respects_read_and_parse {A} (parse : string -> outcome A) path hs :
  Forall (fun ch => reraises (snd ch)) hs ->
  respects R (try_except (file <- open_read path ;; v <- lift (parse file) ;; ret v) hs).
Proof.
  intros Hhs. apply respects_try_except; [|exact Hhs].
  apply respects_bind; [apply respects_open_read | intros file].
  apply respects_bind; [apply respects_lift | intros v; apply respects_ret].
Qed.

Lemma respects_load_params url : respects R (load_params ext url).
Proof. apply respects_read_and_parse. reraising. Qed.

Lemma respects_load_model url : respects R (load_model ext url).
Proof. apply respects_read_and_parse. reraising. Qed.

Lemma respects_load_data datapath : respects R (load_data ext datapath).
Proof. apply respects_read_and_parse. reraising. Qed.

Lemma respects_call_predict clf X : respects R (call_predict clf X).
Proof.
  unfold call_predict. destruct (predict clf); [apply respects_lift | apply respects_raise].
Qed.

Lemma respects_call_predict_proba clf X : respects R (call_predict_proba clf X).
Proof.
  unfold call_predict_proba.
  destruct (predict_proba clf); [apply respects_lift | apply respects_raise].
Qed.

Lemma respects_items v : respects R (items v).
Proof. destruct v; first [apply respects_ret | apply respects_raise]. Qed.

Lemma respects_log_metric name val : respects R (live_log_metric ext name val).
Proof.
  intros w. unfold live_log_metric.
  destruct (log_metric_error ext name val); [apply R_refl | apply (R_track [LogMetric name val])].
Qed.

Lemma respects_log_param name val : respects R (live_log_param ext name val).
Proof.
  intros w. unfold live_log_param.
  destruct (log_param_error ext name val); [apply R_refl | apply (R_track [LogParam name val])].
Qed.

Lemma respects_with_Live {A} b (body : M A) :
  respects R body -> respects R (with_Live ext b body).
Proof.
  intros Hb w. unfold with_Live, Live_enter.
  destruct (Live_init_error ext); [apply R_refl|].
  specialize (Hb (track [LiveOpen b] w)). unfold track in Hb at 1.
  destruct (body _) as [r w2]. cbn [snd] in *.
  eapply R_trans; [apply (R_track [LiveOpen b])|].
  eapply R_trans; [exact Hb | apply (R_track [LiveEnd])].
Qed.

Lemma respects_evaluate_model clf X_test Y_test :
  respects R (evaluate_model ext clf X_test Y_test).
Proof.
  apply respects_try_except; [|reraising].
  apply respects_bind; [apply respects_call_predict | intros Y_pred].
  apply respects_bind;
    [apply respects_bind; [apply respects_call_predict_proba | intros P; apply respects_lift]
    | intros Y_pred_proba].
  apply respects_bind; [apply respects_load_params | intros params].
  do 4 (apply respects_bind; [apply respects_lift | intros ?]).
  apply respects_bind; [|intros _; apply respects_ret].
  apply respects_with_Live.
  do 4 (apply respects_bind; [apply respects_log_metric | intros _]).
  apply respects_bind; [apply respects_items | intros sections].
  apply respects_for_each. intros [param value].
  apply respects_bind; [apply respects_items | intros entries].
  apply respects_for_each. intros [key val]. apply respects_log_param.
Qed.

Lemma respects_save_metrics_dict metrics file_path :
  writable file_path -> respects R (save_metrics_dict ext metrics file_path).
Proof.
  intros Hw. apply respects_try_except; [|reraising].
  apply respects_bind.
  - intros w. unfold open_write. destruct (open_w_error ext file_path); [apply R_refl|].
    apply (R_set_file file_path EmptyString w Hw).
  - intros _. unfold json_dump. apply respects_bind.
    + intros w. apply (R_set_file file_path _ w Hw).
    + intros _. destruct (snd _); [apply respects_raise | apply respects_ret].
Qed.

Lemma respects_main_body :
  writable "reports/metrics.json" -> respects R (main_body ext).
Proof.
  intros Hw. unfold main_body, logger_debug.
  apply respects_bind; [apply respects_load_model | intros clf].
  apply respects_bind; [apply respects_emit | intros _].
  apply respects_bind; [apply respects_load_data | intros test_data].
  apply respects_bind; [apply respects_emit | intros _].
  apply respects_bind.
  { unfold iloc_last. destruct (ncols test_data); [apply respects_raise | apply respects_ret]. }
  intros Y_test.
  apply respects_bind; [apply respects_evaluate_model | intros metrics_dict].
  apply respects_bind; [apply respects_emit | intros _].
  apply respects_bind; [now apply respects_save_metrics_dict | intros _].
  apply respects_emit.
Qed.

Lemma respects_main :
  writable "reports/metrics.json" -> respects R (main ext).
Proof.
  intros Hw w. rewrite main_of_body. pose proof (respects_main_body Hw w) as Hb.
  destruct (main_body ext w) as [[a|e] w1]; cbn [snd] in *; [exact Hb|].
  exact (R_trans _ _ _ Hb (R_logged _ _ _)).
Qed.

End Footprint.

Lemma fs_logged lvl msg w : fs (logged lvl msg w) = fs w.
Proof. destruct lvl; reflexivity. Qed.

Lemma same_files_trans w1 w2 w3 : same_files w1 w2 -> same_files w2 w3 -> same_files w1 w3.
Proof. unfold same_files. congruence. Qed.

Lemma evaluate_model_keeps_files ext clf X_test Y_test w :
  fs (snd (evaluate_model ext clf X_test Y_test w)) = fs w.
Proof.
  exact (respects_evaluate_model ext same_files (fun _ => eq_refl) same_files_trans fs_logged
           (fun _ _ => eq_refl) clf X_test Y_test w).
Qed.

Lemma load_params_keeps_files ext url w : fs (snd (load_params ext url w)) = fs w.
Proof.
  exact (respects_load_params ext same_files (fun _ => eq_refl) same_files_trans fs_logged url w).
Qed.

Lemma load_model_keeps_files ext url w : fs (snd (load_model ext url w)) = fs w.
Proof.
  exact (respects_load_model ext same_files (fun _ => eq_refl) same_files_trans fs_logged url w).
Qed.

Lemma load_data_keeps_files ext datapath w : fs (snd (load_data ext datapath w)) = fs w.
Proof.
  exact (respects_load_data ext same_files (fun _ => eq_refl) same_files_trans fs_logged
           datapath w).
Qed.

(** X4. The loaders and [evaluate_model] leave the pipeline's own files
    alone: the model artifact, the test table, [params.yaml] and
    [reports/metrics.json] hold after the call what they held before,
    whatever the parsers and the classifier do, whichever tracker call
    raises, and whether the call returns or raises. What these calls do
    write is elsewhere: records in [errors.log], and what the tracker
    keeps of the calls it receives. *)
Theorem stages_keep_pipeline_files
    (ext : externals) (path : string) (clf : model_obj) (X_test : DataFrame)
    (Y_test : list Z) (q : string) (w : world) :
  In q pipeline_files ->
  fs (snd (load_params ext path w)) !! q = fs w !! q /\
  fs (snd (load_model ext path w)) !! q = fs w !! q /\
  fs (snd (load_data ext path w)) !! q = fs w !! q /\
  fs (snd (evaluate_model ext clf X_test Y_test w)) !! q = fs w !! q.
Proof.
  intros _.
  now rewrite load_params_keeps_files, load_model_keeps_files, load_data_keeps_files,
    evaluate_model_keeps_files.
Qed.

Lemma stages_keep_pipeline_files_witness :
  In "reports/metrics.json" pipeline_files /\
  fs (snd (evaluate_model refusing_ext constant_clf (iloc_all_but_last sample_table)
             [1; 1; 0; 1]%Z sample_dir)) !! "reports/metrics.json"
  = fs sample_dir !! "reports/metrics.json".
Proof.
  assert (In "reports/metrics.json" pipeline_files) as Hin by (cbn; auto).
  split; [exact Hin|].
  exact (proj2 (proj2 (proj2
    (stages_keep_pipeline_files refusing_ext "params.yaml" constant_clf
       (iloc_all_but_last sample_table) [1; 1; 0; 1]%Z "reports/metrics.json" sample_dir Hin)))).
Defined.

Lemma same_files_except_trans path w1 w2 w3 :
  same_files_except path w1 w2 -> same_files_except path w2 w3 -> same_files_except path w1 w3.
Proof. intros H12 H23 q Hq. now rewrite (H23 q Hq), (H12 q Hq). Qed.

Lemma same_files_except_logged path lvl msg w : same_files_except path w (logged lvl msg w).
Proof. intros q _. now rewrite fs_logged. Qed.

Lemma same_files_except_set path p c w : p = path -> same_files_except path w (set_file p c w).
Proof. intros -> q Hq. cbn [set_file fs]. now apply lookup_insert_ne. Qed.

(** X5. [save_metrics_dict] writes its target and, when it fails, a record
    in [errors.log], and nothing else: a file under any other name than
    these two holds after the call what it held before, whether the call
    returns or raises. A file is named here by the path the program opens
    it with. *)
Theorem save_metrics_dict_touches_only_its_file
    (ext : externals) (metrics : list (string * pyval)) (file_path q : string) (w : world) :
  q <> file_path ->
  q <> "errors.log" ->
  fs (snd (save_metrics_dict ext metrics file_path w)) !! q = fs w !! q.
Proof.
  intros Hq _.
  exact (respects_save_metrics_dict ext (same_files_except file_path) (fun p => p = file_path)
           (fun _ _ _ => eq_refl) (same_files_except_trans file_path)
           (same_files_except_logged file_path)
           (fun p c w0 => same_files_except_set file_path p c w0)
           metrics file_path eq_refl w q Hq).
Qed.

Lemma save_metrics_dict_touches_only_its_file_witness :
  "params.yaml" <> "reports/metrics.json" /\
  "params.yaml" <> "errors.log" /\
  fs (snd (save_metrics_dict (sample_ext sample_params) unserializable_metrics
             "reports/metrics.json" sample_dir)) !! "params.yaml"
  = fs sample_dir !! "params.yaml".
Proof.
  split; [discriminate|]. split; [discriminate|].
  apply (save_metrics_dict_touches_only_its_file (sample_ext sample_params)
           unserializable_metrics "reports/metrics.json" "params.yaml" sample_dir);
    discriminate.
Defined.

Lemma main_keeps_other_files ext q w :
  q <> "reports/metrics.json" -> fs (snd (main ext w)) !! q = fs w !! q.
Proof.
  intros Hq.
  exact (respects_main ext (same_files_except "reports/metrics.json")
           (fun p => p = "reports/metrics.json")
           (fun _ _ _ => eq_refl) (same_files_except_trans _)
           (same_files_except_logged _) (fun _ _ _ _ => eq_refl)
           (fun p c w0 => same_files_except_set _ p c w0)
           eq_refl w q Hq).
Qed.

(** X6. [main] leaves its inputs as it found them: the model artifact, the
    test table and [params.yaml] hold after the run what they held before,
    whatever happened during it. *)
Theorem main_keeps_its_inputs (ext : externals) (q : string) (w : world) :
  In q input_files ->
  fs (snd (main ext w)) !! q = fs w !! q.
Proof.
  intros Hq. apply main_keeps_other_files.
  cbn in Hq. destruct Hq as [<- | [<- | [<- | []]]]; discriminate.
Qed.

Lemma main_keeps_its_inputs_witness :
  In "models/model.pkl" input_files /\
  fs (snd (main (sample_ext sample_params) sample_dir)) !! "models/model.pkl"
  = fs sample_dir !! "models/model.pkl".
Proof.
  assert (In "models/model.pkl" input_files) as Hin by (cbn; auto).
  split; [exact Hin|].
  exact (main_keeps_its_inputs (sample_ext sample_params) "models/model.pkl" sample_dir Hin).
Defined.

Lemma logs_grow_refl w : logs_grow w w.
Proof. exists []. cbn. now rewrite !app_nil_r. Qed.

Lemma logs_grow_trans w1 w2 w3 : logs_grow w1 w2 -> logs_grow w2 w3 -> logs_grow w1 w3.
Proof.
  intros (r1 & Hc1 & He1) (r2 & Hc2 & He2). exists (r1 ++ r2).
  rewrite Hc2, Hc1, He2, He1, List.filter_app, <- !app_assoc. auto.
Qed.

Lemma logs_grow_logged lvl msg w : logs_grow w (logged lvl msg w).
Proof.
  exists [mkRecord logger_name lvl msg].
  destruct lvl; split; cbn; rewrite ?app_nil_r; reflexivity.
Qed.

(** X7. Across a run of [main], whatever happens in it, the two logs only
    grow: the console gains some records at its end, and [errors.log] gains,
    in the same order, exactly those of them that are at WARNING or above;
    no record of either is removed or rewritten. *)
Theorem main_logs_only_grow (ext : externals) (w : world) :
  exists recs,
    console (snd (main ext w)) = console w ++ recs /\
    errors_log (snd (main ext w)) = errors_log w ++ List.filter reaches_file recs.
Proof.
  assert (forall w0 w1, console w1 = console w0 -> errors_log w1 = errors_log w0 ->
                        logs_grow w0 w1) as Hsame.
  { intros w0 w1 Hc He. exists []. cbn. now rewrite !app_nil_r. }
  exact (respects_main ext logs_grow (fun _ => True)
           logs_grow_refl logs_grow_trans logs_grow_logged
           (fun evs w0 => Hsame w0 (track evs w0) eq_refl eq_refl)
           (fun p c w0 _ => Hsame w0 (set_file p c w0) eq_refl eq_refl)
           I w).
Qed.

(** ** Saving *)




Lemma open_then_dump (ext : externals) (obj : pyval) (path : string) (w : world) :
  open_w_error ext path = None ->
  (open_write ext path ;; json_dump ext obj path) w =
  (match snd (json.iterencode ext 4 obj 0) with
   | Some e => Raise e
   | None => Ok tt
   end,
   set_file path (fst (json.iterencode ext 4 obj 0)) w).
Proof.
  intros Hopen. unfold bind, open_write, json_dump, file_write, bind. rewrite Hopen.
  cbn [fs console errors_log tracker]. rewrite lookup_insert_eq, insert_insert_eq.
  cbn [default]. unfold set_file.
  destruct (snd (json.iterencode ext 4 obj 0)); reflexivity.
Qed.

(** X8. When [open(file_path, 'w')] raises, [save_metrics_dict] re-raises
    that exception after one ERROR record and leaves every file as it was;
    an [OSError], which a missing directory's [FileNotFoundError] is, is
    reported as an I/O error. *)
Theorem save_metrics_dict_open_failure
    (ext : externals) (metrics : list (string * pyval)) (file_path : string) (w : world)
    (e : exn) :
  open_w_error ext file_path = Some e ->
  exists msg,
    save_metrics_dict ext metrics file_path w = (Raise e, logged ERROR msg w) /\
    fs (logged ERROR msg w) = fs w /\
    (isinstance e OSError = true ->
     msg = "Error: An I/O error occurred while saving the metrics: " +:+ str e).
Proof.
  intros Hopen. unfold save_metrics_dict, try_except, bind, open_write. rewrite Hopen.
  cbn [dispatch]. destruct (isinstance e OSError) eqn:HOS.
  - eexists. split; [apply logger_error_reraise|]. split; [reflexivity | auto].
  - destruct (isinstance e TypeError).
    + eexists. split; [apply logger_error_reraise|]. split; [reflexivity | discriminate].
    + rewrite isinstance_Exception.
      eexists. split; [apply logger_error_reraise|]. split; [reflexivity | discriminate].
Qed.

Lemma save_metrics_dict_open_failure_witness :
  open_w_error no_reports_dir_ext "reports/metrics.json"
  = Some (no_such_file "reports/metrics.json") /\
  exists msg,
    save_metrics_dict no_reports_dir_ext sample_metrics "reports/metrics.json" sample_dir
    = (Raise (no_such_file "reports/metrics.json"), logged ERROR msg sample_dir) /\
    fs (logged ERROR msg sample_dir) = fs sample_dir /\
    (isinstance (no_such_file "reports/metrics.json") OSError = true ->
     msg = "Error: An I/O error occurred while saving the metrics: "
             +:+ str (no_such_file "reports/metrics.json")).
Proof.
  split; [reflexivity|].
  exact (save_metrics_dict_open_failure no_reports_dir_ext sample_metrics
           "reports/metrics.json" sample_dir (no_such_file "reports/metrics.json") eq_refl).
Defined.







(** ** What a successful evaluation leaves behind *)

Lemma live_log_metric_Ok ext name val w u w' :
  live_log_metric ext name val w = (Ok u, w') -> w' = track [LogMetric name val] w.
Proof.
  unfold live_log_metric. destruct (log_metric_error ext name val); [discriminate|].
  now intros [= _ <-].
Qed.

Lemma live_log_param_Ok ext name val w u w' :
  live_log_param ext name val w = (Ok u, w') -> w' = track [LogParam name val] w.
Proof.
  unfold live_log_param. destruct (log_param_error ext name val); [discriminate|].
  now intros [= _ <-].
Qed.

Lemma log_entries_Ok ext (param : string) (entries : list (string * pyval)) w u w' :
  for_each entries (fun '(key, val) => live_log_param ext (param +:+ "_" +:+ key) val) w
    = (Ok u, w') ->
  w' = track (param_events
                (List.map (fun '(key, val) => (param +:+ "_" +:+ key, val)) entries)) w.
Proof.
  revert w. induction entries as [|[key val] entries IH]; intros w H; cbn [for_each] in H.
  - injection H as _ <-. cbn. now rewrite track_nil.
  - apply bind_Ok in H as (u1 & w1 & H1 & H). apply live_log_param_Ok in H1 as ->.
    apply IH in H as ->. now rewrite track_track.
Qed.

Lemma log_sections_Ok ext (sections : list (string * pyval)) w u w' :
  for_each sections (fun '(param, value) =>
      entries <- items value ;;
      for_each entries (fun '(key, val) =>
        live_log_param ext (param +:+ "_" +:+ key) val)) w
    = (Ok u, w') ->
  Forall (fun kv => exists entries, snd kv = PDict entries) sections /\
  w' = track (param_events (flat_params sections)) w.
Proof.
  revert w. induction sections as [|[param value] sections IH]; intros w H; cbn [for_each] in H.
  - injection H as _ <-. split; [constructor | now rewrite track_nil].
  - apply bind_Ok in H as (u1 & w1 & H1 & H).
    apply bind_Ok in H1 as (entries & w0 & Hitems & H1).
    destruct value; try discriminate. injection Hitems as <- <-.
    apply log_entries_Ok in H1 as ->. apply IH in H as [HF ->].
    split; [constructor; [cbn; eauto | exact HF]|].
    rewrite track_track. unfold param_events, flat_params. cbn [flat_map].
    now rewrite List.map_app.
Qed.

Lemma with_Live_Ok {A} ext b (body : M A) w a w' :
  with_Live ext b body w = (Ok a, w') ->
  exists w2, body (track [LiveOpen b] w) = (Ok a, w2) /\ w' = track [LiveEnd] w2.
Proof.
  unfold with_Live, Live_enter. destruct (Live_init_error ext); [discriminate|].
  change (mkWorld (fs w) (console w) (errors_log w) (tracker w ++ [LiveOpen b]))
    with (track [LiveOpen b] w).
  destruct (body (track [LiveOpen b] w)) as [r w2]. intros [= -> <-]. eauto.
Qed.

(** The steps before the session (lines 81-87) of a call that returns. *)
Lemma evaluate_model_Ok_steps
    (ext : externals) (clf : model_obj) (X_test : DataFrame) (Y_test : list Z)
    (w w' : world) (m : list (string * pyval)) :
  evaluate_model ext clf X_test Y_test w = (Ok m, w') ->
  exists accuracy precision recall auc file params,
    m = [ ("accuracy", PFloat accuracy); ("precision", PFloat precision);
          ("recall", PFloat recall); ("auc", PFloat auc) ] /\
    fs w !! "params.yaml" = Some file /\
    yaml_safe_load ext file = Ok params /\
    with_Live ext true
      (live_log_metric ext "accuracy" accuracy ;;
       live_log_metric ext "precision" precision ;;
       live_log_metric ext "recall" recall ;;
       live_log_metric ext "roc -auc score" auc ;;
       sections <- items params ;;
       for_each sections (fun '(param, value) =>
         entries <- items value ;;
         for_each entries (fun '(key, val) =>
           live_log_param ext (param +:+ "_" +:+ key) val))) w = (Ok tt, w').
Proof.
  intros H. unfold evaluate_model, evaluate_model_body in H. apply try_except_Ok in H; [|reraising].
  apply bind_Ok in H as (Y_pred & w1 & Hp & H).
  apply call_predict_Ok in Hp as [-> _].
  apply bind_Ok in H as (scores & w2 & Hpp & H).
  apply bind_Ok in Hpp as (P & w3 & Hg & Hcol).
  apply call_predict_proba_Ok in Hg as [-> _].
  apply lift_Ok in Hcol as [_ ->].
  apply bind_Ok in H as (params & w4 & Hparams & H).
  apply load_params_Ok in Hparams as [-> (file & Hfs & Hyaml)].
  apply bind_Ok in H as (accuracy & w5 & Ha & H). apply lift_Ok in Ha as [_ ->].
  apply bind_Ok in H as (precision & w6 & Hpr & H). apply lift_Ok in Hpr as [_ ->].
  apply bind_Ok in H as (recall & w7 & Hr & H). apply lift_Ok in Hr as [_ ->].
  apply bind_Ok in H as (auc & w8 & Hu & H). apply lift_Ok in Hu as [_ ->].
  apply bind_Ok in H as ([] & w9 & Hlive & H). injection H as <- <-.
  exists accuracy, precision, recall, auc, file, params. auto.
Qed.

(** The session (lines 88-96) of a call that returns. *)
Lemma session_Ok_tracked
    (ext : externals) (accuracy precision recall auc : pyfloat) (params : pyval)
    (w w' : world) (u : unit) :
  with_Live ext true
    (live_log_metric ext "accuracy" accuracy ;;
     live_log_metric ext "precision" precision ;;
     live_log_metric ext "recall" recall ;;
     live_log_metric ext "roc -auc score" auc ;;
     sections <- items params ;;
     for_each sections (fun '(param, value) =>
       entries <- items value ;;
       for_each entries (fun '(key, val) =>
         live_log_param ext (param +:+ "_" +:+ key) val))) w = (Ok u, w') ->
  exists sections,
    params = PDict sections /\
    Forall (fun kv => exists entries, snd kv = PDict entries) sections /\
    w' = track [LiveEnd]
           (track (param_events (flat_params sections))
              (track [ LogMetric "accuracy" accuracy; LogMetric "precision" precision;
                       LogMetric "recall" recall; LogMetric "roc -auc score" auc ]
                 (track [LiveOpen true] w))).
Proof.
  intros Hlive.
  apply with_Live_Ok in Hlive as (w10 & Hbody & ->).
  apply bind_Ok in Hbody as (u1 & v1 & H1 & Hbody). apply live_log_metric_Ok in H1 as ->.
  apply bind_Ok in Hbody as (u2 & v2 & H2 & Hbody). apply live_log_metric_Ok in H2 as ->.
  apply bind_Ok in Hbody as (u3 & v3 & H3 & Hbody). apply live_log_metric_Ok in H3 as ->.
  apply bind_Ok in Hbody as (u4 & v4 & H4 & Hbody). apply live_log_metric_Ok in H4 as ->.
  apply bind_Ok in Hbody as (sections & v5 & Hitems & Hbody).
  destruct params; try discriminate. injection Hitems as <- <-.
  apply log_sections_Ok in Hbody as [HF ->].
  exists entries. rewrite !track_track. auto.
Qed.

(** X11. When [evaluate_model] returns, the only thing that has changed is
    the tracker, which has received one session: the opening with
    [save_dvc_exp] set, the four values of the returned mapping under the
    names accuracy, precision, recall and [roc -auc score], one parameter
    per entry of each section of [params.yaml] under [section_key], in file
    order, and the end. Nothing was logged and no file was touched, and
    [params.yaml] was a mapping of mappings. *)
Theorem evaluate_model_success_postcondition
    (ext : externals) (clf : model_obj) (X_test : DataFrame) (Y_test : list Z)
    (w w' : world) (m : list (string * pyval)) :
  evaluate_model ext clf X_test Y_test w = (Ok m, w') ->
  exists accuracy precision recall auc file sections,
    m = [ ("accuracy", PFloat accuracy); ("precision", PFloat precision);
          ("recall", PFloat recall); ("auc", PFloat auc) ] /\
    fs w !! "params.yaml" = Some file /\
    yaml_safe_load ext file = Ok (PDict sections) /\
    Forall (fun kv => exists entries, snd kv = PDict entries) sections /\
    w' = track (LiveOpen true ::
                [ LogMetric "accuracy" accuracy; LogMetric "precision" precision;
                  LogMetric "recall" recall; LogMetric "roc -auc score" auc ]
                ++ param_events (flat_params sections) ++ [LiveEnd]) w.
Proof.
  intros H.
  apply evaluate_model_Ok_steps in H
    as (accuracy & precision & recall & auc & file & params & Hm & Hfs & Hyaml & Hlive).
  apply session_Ok_tracked in Hlive as (sections & -> & Hsections & ->).
  exists accuracy, precision, recall, auc, file, sections.
  repeat (split; [assumption|]).
  rewrite !track_track. reflexivity.
Qed.

Lemma evaluate_model_success_postcondition_witness :
  evaluate_model (sample_ext sample_params) constant_clf
    (iloc_all_but_last sample_table) [1; 1; 0; 1]%Z sample_dir
  = (Ok sample_metrics, sample_tracked) /\
  exists accuracy precision recall auc file sections,
    sample_metrics =
      [ ("accuracy", PFloat accuracy); ("precision", PFloat precision);
        ("recall", PFloat recall); ("auc", PFloat auc) ] /\
    fs sample_dir !! "params.yaml" = Some file /\
    yaml_safe_load (sample_ext sample_params) file = Ok (PDict sections) /\
    Forall (fun kv => exists entries, snd kv = PDict entries) sections /\
    sample_tracked =
      track (LiveOpen true ::
             [ LogMetric "accuracy" accuracy; LogMetric "precision" precision;
               LogMetric "recall" recall; LogMetric "roc -auc score" auc ]
             ++ param_events (flat_params sections) ++ [LiveEnd]) sample_dir.
Proof.
  split; [exact sample_evaluation|].
  exact (evaluate_model_success_postcondition _ _ _ _ _ _ _ sample_evaluation).
Defined.

(** ** What a change to the tracker or to the files tells *)

Section Changed.

Context {T : Type} (proj : world -> T).

(** If a part of the world differs after [m ;; k] and [m] never changes
    that part, then [m] returned and the change is [k]'s. *)
Lemma changed_bind {A B} (m : M A) (k : A -> M B) w (P : Prop) :
  (forall w0, proj (snd (m w0)) = proj w0) ->
  (forall a w1, m w = (Ok a, w1) -> proj (snd (k a w1)) <> proj w1 -> P) ->
  proj (snd (bind m k w)) <> proj w -> P.
Proof.
  intros Hm Hk. specialize (Hm w). unfold bind.
  destruct (m w) as [[a|e] w1]; cbn [snd] in *; [|congruence].
  rewrite <- Hm. now apply Hk.
Qed.

Lemma changed_try_except {A} (body : M A) hs w :
  (forall lvl msg w0, proj (logged lvl msg w0) = proj w0) ->
  Forall (fun ch => reraises (snd ch)) hs ->
  proj (snd (try_except body hs w)) <> proj w -> proj (snd (body w)) <> proj w.
Proof.
  intros Hlog Hhs. unfold try_except. destruct (body w) as [[a|e] w1]; cbn [snd]; [auto|].
  destruct (dispatch_reraises e hs w1 Hhs) as [-> | [msg ->]]; cbn [snd]; [auto|].
  now rewrite Hlog.
Qed.

End Changed.

(** X12. [evaluate_model] calls the tracker only once both predictions are
    made, [params.yaml] is loaded and the four metrics are computed: if the
    tracker has received anything by the end of a call, whether the call
    returned or raised, all of that succeeded. *)
Theorem evaluate_model_tracks_only_after_metrics
    (ext : externals) (clf : model_obj) (X_test : DataFrame) (Y_test : list Z) (w : world) :
  tracker (snd (evaluate_model ext clf X_test Y_test w)) <> tracker w ->
  (exists m, evaluates clf X_test Y_test m) /\
  (exists file params, fs w !! "params.yaml" = Some file /\ yaml_safe_load ext file = Ok params).
Proof.
  intros H. unfold evaluate_model, evaluate_model_body in H.
  apply (changed_try_except tracker) in H; [|intros [] ? ?; reflexivity | reraising].
  revert H. apply changed_bind; [apply quiet_call_predict | intros Y_pred w1 Hp].
  apply call_predict_Ok in Hp as [-> (f & Hf & Hfx)].
  apply changed_bind;
    [apply quiet_bind; [apply quiet_call_predict_proba | intros; apply quiet_lift]
    | intros scores w2 Hpp].
  apply bind_Ok in Hpp as (P & w3 & Hg & Hcol).
  apply call_predict_proba_Ok in Hg as [-> (g & Hg & Hgx)].
  apply lift_Ok in Hcol as [Hcol ->].
  apply changed_bind; [apply quiet_load_params | intros params w4 Hparams].
  apply load_params_Ok in Hparams as [-> (file & Hfs & Hyaml)].
  apply changed_bind; [apply quiet_lift | intros accuracy w5 Ha]. apply lift_Ok in Ha as [Ha ->].
  apply changed_bind; [apply quiet_lift | intros precision w6 Hpr].
  apply lift_Ok in Hpr as [Hpr ->].
  apply changed_bind; [apply quiet_lift | intros recall w7 Hr]. apply lift_Ok in Hr as [Hr ->].
  apply changed_bind; [apply quiet_lift | intros auc w8 Hu]. apply lift_Ok in Hu as [Hu ->].
  intros _. split; [|eauto].
  eexists. econstructor; eassumption.
Qed.

Lemma evaluate_model_tracks_only_after_metrics_witness :
  tracker (snd (evaluate_model refusing_ext constant_clf (iloc_all_but_last sample_table)
                  [1; 1; 0; 1]%Z sample_dir)) <> tracker sample_dir /\
  (exists m, evaluates constant_clf (iloc_all_but_last sample_table) [1; 1; 0; 1]%Z m) /\
  (exists file params, fs sample_dir !! "params.yaml" = Some file /\
                       yaml_safe_load refusing_ext file = Ok params).
Proof.
  assert (tracker (snd (evaluate_model refusing_ext constant_clf
                          (iloc_all_but_last sample_table) [1; 1; 0; 1]%Z sample_dir))
          <> tracker sample_dir) as Hchanged.
  { rewrite session_ended_when_log_metric_raises. discriminate. }
  split; [exact Hchanged|].
  exact (evaluate_model_tracks_only_after_metrics refusing_ext constant_clf
           (iloc_all_but_last sample_table) [1; 1; 0; 1]%Z sample_dir Hchanged).
Defined.

(** ** How [evaluate_model] reports a failure *)

Lemma try_except_Raise {A} (body : M A) hs w e w' :
  Forall (fun ch => reraises (snd ch)) hs ->
  try_except body hs w = (Raise e, w') ->
  exists w1, body w = (Raise e, w1) /\ dispatch e hs w1 = (Raise e, w').
Proof.
  intros Hhs. unfold try_except. destruct (body w) as [[a|e0] w1]; [discriminate|].
  intros H. destruct (dispatch_reraises e0 hs w1 Hhs) as [Hd | [msg Hd]];
    rewrite Hd in H; injection H as <- <-; eauto.
Qed.

(** X13. [evaluate_model] raises [e] exactly when one of the statements
    inside its [try] raised that same [e]; what the handlers add to what
    those statements had done is one ERROR record, whose wording is chosen
    by the class of [e] alone: the missing-methods line for any
    [AttributeError], else the value-error line for any [ValueError], else
    the unexpected-error line; each is followed by the text of [e]. *)
Theorem evaluate_model_failure_report
    (ext : externals) (clf : model_obj) (X_test : DataFrame) (Y_test : list Z)
    (w w' : world) (e : exn) :
  evaluate_model ext clf X_test Y_test w = (Raise e, w') <->
  exists w1,
    evaluate_model_body ext clf X_test Y_test w = (Raise e, w1) /\
    w' = logged ERROR
           ((if isinstance e AttributeError
             then "Error: Model does not have the required methods. Details: "
             else if isinstance e ValueError
             then "Error: Value error in predictions or metrics calculation. Details: "
             else "An unexpected error occurred while evaluating the model: ") +:+ str e) w1.
Proof.
  assert (forall w1,
            dispatch e
              [ (AttributeError, fun e =>
                   logger_error ("Error: Model does not have the required methods. Details: " +:+ str e) ;;
                   raise_ e);
                (ValueError, fun e =>
                   logger_error ("Error: Value error in predictions or metrics calculation. Details: " +:+ str e) ;;
                   raise_ e);
                (Exception, fun e =>
                   logger_error ("An unexpected error occurred while evaluating the model: " +:+ str e) ;;
                   raise_ e) ] w1
            = (@Raise (list (string * pyval)) e,
               logged ERROR
                 ((if isinstance e AttributeError
                   then "Error: Model does not have the required methods. Details: "
                   else if isinstance e ValueError
                   then "Error: Value error in predictions or metrics calculation. Details: "
                   else "An unexpected error occurred while evaluating the model: ") +:+ str e)
                 w1)) as Hd.
  { intros w1. cbn [dispatch].
    destruct (isinstance e AttributeError); [apply logger_error_reraise|].
    destruct (isinstance e ValueError); [apply logger_error_reraise|].
    rewrite isinstance_Exception. apply logger_error_reraise. }
  unfold evaluate_model, try_except. split.
  - destruct (evaluate_model_body ext clf X_test Y_test w) as [[m|e0] w1] eqn:Hbody;
      [discriminate|].
    intros H. exists w1.
    assert (e0 = e) as ->.
    { destruct (dispatch_reraises e0
                  [ (AttributeError, fun e : exn =>
                       logger_error ("Error: Model does not have the required methods. Details: " +:+ str e) ;;
                       @raise_ (list (string * pyval)) e);
                    (ValueError, fun e =>
                       logger_error ("Error: Value error in predictions or metrics calculation. Details: " +:+ str e) ;;
                       raise_ e);
                    (Exception, fun e =>
                       logger_error ("An unexpected error occurred while evaluating the model: " +:+ str e) ;;
                       raise_ e) ] w1) as [Hr | [msg Hr]];
        [reraising | | ]; rewrite Hr in H; now injection H. }
    rewrite Hd in H. injection H as <-. auto.
  - intros (w1 & -> & ->). apply Hd.
Qed.

(** A classifier that was never trained takes the missing-methods line,
    although both of its methods are there. *)
Lemma evaluate_model_failure_report_witness :
  evaluate_model (sample_ext sample_params) unfitted_clf (iloc_all_but_last sample_table)
    [1; 1; 0; 1]%Z sample_dir
  = (Raise not_fitted,
     logged ERROR "Error: Model does not have the required methods. Details: This RandomForestClassifier instance is not fitted yet. Call 'fit' with appropriate arguments before using this estimator."
       sample_dir).
Proof.
  apply (proj2 (evaluate_model_failure_report (sample_ext sample_params) unfitted_clf
                  (iloc_all_but_last sample_table) [1; 1; 0; 1]%Z sample_dir _ not_fitted)).
  exists sample_dir. split; reflexivity.
Defined.

(** X14. A classifier that has [predict] but no [predict_proba] (line 82):
    once [predict] has returned, [evaluate_model] raises the AttributeError
    of the failed lookup, reported by the missing-methods line, and nothing
    else has happened. *)
Theorem evaluate_model_without_predict_proba
    (ext : externals) (clf : model_obj) (X_test : DataFrame) (Y_test : list Z) (w : world)
    (f : DataFrame -> outcome (list Z)) (Y_pred : list Z) :
  predict clf = Some f -> f X_test = Ok Y_pred ->
  predict_proba clf = None ->
  evaluate_model ext clf X_test Y_test w =
  (Raise (no_attribute (cls_name clf) "predict_proba"),
   logged ERROR ("Error: Model does not have the required methods. Details: '"
                   +:+ cls_name clf +:+ "' object has no attribute 'predict_proba'") w).
Proof.
  intros Hf Hfx Hg.
  unfold evaluate_model, evaluate_model_body, try_except, bind, call_predict, call_predict_proba, lift.
  now rewrite Hf, Hfx, Hg.
Qed.

Lemma evaluate_model_without_predict_proba_witness :
  predict labels_only_clf = Some always_one /\
  predict_proba labels_only_clf = None /\
  evaluate_model (sample_ext sample_params) labels_only_clf
    (iloc_all_but_last sample_table) [1; 1; 0; 1]%Z sample_dir =
  (Raise (no_attribute (cls_name labels_only_clf) "predict_proba"),
   logged ERROR ("Error: Model does not have the required methods. Details: '"
                   +:+ cls_name labels_only_clf
                   +:+ "' object has no attribute 'predict_proba'") sample_dir).
Proof.
  split; [reflexivity|]. split; [reflexivity|].
  exact (evaluate_model_without_predict_proba (sample_ext sample_params) labels_only_clf
           (iloc_all_but_last sample_table) [1; 1; 0; 1]%Z sample_dir
           always_one [1; 1; 1; 1]%Z eq_refl eq_refl eq_refl).
Defined.

(** X15. A [predict_proba] whose array has fewer than two columns: taking
    column 1 raises [IndexError], which [evaluate_model] reports through the
    unexpected-error line and re-raises before loading the parameters or
    computing any metric. *)
Theorem evaluate_model_single_column_proba
    (ext : externals) (clf : model_obj) (X_test : DataFrame) (Y_test : list Z) (w : world)
    (f : DataFrame -> outcome (list Z)) (Y_pred : list Z)
    (g : DataFrame -> outcome ndarray2) (P : ndarray2) :
  predict clf = Some f -> f X_test = Ok Y_pred ->
  predict_proba clf = Some g -> g X_test = Ok P ->
  (shape1 P <= 1)%nat ->
  exists e,
    exc_type e = IndexError /\
    str e = "index 1 is out of bounds for axis 1 with size " +:+ str_nat (shape1 P) /\
    evaluate_model ext clf X_test Y_test w =
    (Raise e,
     logged ERROR ("An unexpected error occurred while evaluating the model: " +:+ str e) w).
Proof.
  intros Hf Hfx Hg Hgx Hle. eexists. split; [|split]; cycle 2.
  - unfold evaluate_model, evaluate_model_body, try_except, bind, call_predict, call_predict_proba, lift, column.
    rewrite Hf, Hfx, Hg, Hgx.
    destruct (Nat.ltb_spec 1 (shape1 P)) as [Hlt|_]; [lia|]. reflexivity.
  - reflexivity.
  - reflexivity.
Qed.

Lemma evaluate_model_single_column_proba_witness :
  (shape1 (mkArray2 1 [[1%Q]; [1%Q]; [1%Q]; [1%Q]]) <= 1)%nat /\
  exists e,
    exc_type e = IndexError /\
    str e = "index 1 is out of bounds for axis 1 with size "
              +:+ str_nat (shape1 (mkArray2 1 [[1%Q]; [1%Q]; [1%Q]; [1%Q]])) /\
    evaluate_model (sample_ext sample_params) one_column_clf
      (iloc_all_but_last sample_table) [1; 1; 0; 1]%Z sample_dir =
    (Raise e,
     logged ERROR ("An unexpected error occurred while evaluating the model: " +:+ str e)
       sample_dir).
Proof.
  split; [vm_compute; lia|].
  apply (evaluate_model_single_column_proba (sample_ext sample_params) one_column_clf
           (iloc_all_but_last sample_table) [1; 1; 0; 1]%Z sample_dir
           always_one [1; 1; 1; 1]%Z one_column (mkArray2 1 [[1%Q]; [1%Q]; [1%Q]; [1%Q]]));
    first [reflexivity | vm_compute; lia].
Defined.

(** ** A whole run *)





Lemma emit_keeps_files lvl msg w : fs (snd (emit lvl msg w)) = fs w.
Proof. rewrite emit_logged. apply fs_logged. Qed.

Lemma save_metrics_dict_unopened_keeps_files ext metrics file_path w e :
  open_w_error ext file_path = Some e ->
  fs (snd (save_metrics_dict ext metrics file_path w)) = fs w.
Proof.
  intros Hopen.
  assert (forall hs, Forall (fun ch : exc_class * (exn -> M unit) => reraises (snd ch)) hs ->
                     fs (snd (dispatch e hs w)) = fs w) as Hd.
  { intros hs Hhs. destruct (dispatch_reraises e hs w Hhs) as [-> | [msg ->]];
      [reflexivity | apply fs_logged]. }
  unfold save_metrics_dict, try_except, bind, open_write. rewrite Hopen.
  apply Hd. reraising.
Qed.

(** X17. [main] writes [reports/metrics.json] only at the end of a run that
    worked up to there: if that file holds after [main] something else than
    before, or is there when it was not, then the model and the table were
    loaded, the table had a label column, the four metrics were computed
    from them, and the metrics path could be opened. *)
Theorem main_writes_only_after_evaluation (ext : externals) (w : world) :
  fs (snd (main ext w)) !! "reports/metrics.json" <> fs w !! "reports/metrics.json" ->
  exists model_file clf data_file test_data m,
    fs w !! "models/model.pkl" = Some model_file /\
    pickle_load ext model_file = Ok clf /\
    fs w !! "data/processed/test_bow.csv" = Some data_file /\
    pd_read_csv ext data_file = Ok test_data /\
    ncols test_data <> 0%nat /\
    evaluates clf (iloc_all_but_last test_data)
      (List.map (fun r => List.last r 0%Z) (rows test_data)) m /\
    open_w_error ext "reports/metrics.json" = None.
Proof.
  pose (metrics_file := fun w0 : world => fs w0 !! "reports/metrics.json").
  intros H. change (metrics_file (snd (main ext w)) <> metrics_file w) in H.
  assert (forall (A : Type) (m : M A), (forall w0, fs (snd (m w0)) = fs w0) ->
                                forall w0, metrics_file (snd (m w0)) = metrics_file w0) as Hkeeps.
  { intros A m Hm w0. unfold metrics_file. now rewrite Hm. }
  assert (metrics_file (snd (main_body ext w)) <> metrics_file w) as Hbody.
  { rewrite main_of_body in H. destruct (main_body ext w) as [[a|e] w1]; [exact H|].
    cbn [snd] in *. unfold metrics_file in *. now rewrite fs_logged in H. }
  clear H. revert Hbody. unfold main_body, logger_debug.
  apply changed_bind;
    [apply Hkeeps; intros; apply load_model_keeps_files | intros clf w1 Hclf].
  apply read_and_parse_Ok_iff in Hclf as [-> (model_file & Hmf & Hpickle)];
    [|reraising | last_is_Exception].
  apply changed_bind; [apply Hkeeps; intros; apply emit_keeps_files | intros u w2 Hw2].
  rewrite emit_logged in Hw2. injection Hw2 as _ <-.
  apply changed_bind;
    [apply Hkeeps; intros; apply load_data_keeps_files | intros test_data w3 Htd].
  apply read_and_parse_Ok_iff in Htd as [-> (data_file & Hdf & Hcsv)];
    [|reraising | last_is_Exception].
  change (fs w !! "data/processed/test_bow.csv" = Some data_file) in Hdf.
  apply changed_bind; [apply Hkeeps; intros; apply emit_keeps_files | intros _ w4 _].
  apply changed_bind.
  { intros w0. unfold iloc_last. destruct (ncols test_data); reflexivity. }
  intros Y_test w5 HY.
  assert (ncols test_data <> 0%nat /\
          Y_test = List.map (fun r => List.last r 0%Z) (rows test_data)) as [Hcols ->].
  { unfold iloc_last in HY. destruct (ncols test_data); [discriminate|].
    injection HY as <- _. auto. }
  apply changed_bind;
    [apply Hkeeps; intros; apply evaluate_model_keeps_files | intros m w6 Hm].
  apply evaluate_model_Ok in Hm.
  apply changed_bind; [apply Hkeeps; intros; apply emit_keeps_files | intros _ w7 _].
  intros Hsave.
  destruct (open_w_error ext "reports/metrics.json") as [e|] eqn:Hopen.
  - exfalso. apply Hsave. unfold bind, metrics_file.
    pose proof (save_metrics_dict_unopened_keeps_files ext m _ w7 e Hopen) as Hkeep.
    destruct (save_metrics_dict ext m "reports/metrics.json" w7) as [[u'|e'] w8];
      cbn [snd] in *; [|now rewrite Hkeep].
    now rewrite emit_keeps_files, Hkeep.
  - exists model_file, clf, data_file, test_data, m.
    repeat (split; [assumption|]). reflexivity.
Qed.

Lemma main_writes_only_after_evaluation_witness :
  fs (snd (main (sample_ext sample_params) sample_dir)) !! "reports/metrics.json"
  <> fs sample_dir !! "reports/metrics.json" /\
  exists model_file clf data_file test_data m,
    fs sample_dir !! "models/model.pkl" = Some model_file /\
    pickle_load (sample_ext sample_params) model_file = Ok clf /\
    fs sample_dir !! "data/processed/test_bow.csv" = Some data_file /\
    pd_read_csv (sample_ext sample_params) data_file = Ok test_data /\
    ncols test_data <> 0%nat /\
    evaluates clf (iloc_all_but_last test_data)
      (List.map (fun r => List.last r 0%Z) (rows test_data)) m /\
    open_w_error (sample_ext sample_params) "reports/metrics.json" = None.
Proof.
  assert (fs (snd (main (sample_ext sample_params) sample_dir)) !! "reports/metrics.json"
          <> fs sample_dir !! "reports/metrics.json") as Hchanged
    by (vm_compute; discriminate).
  split; [exact Hchanged|].
  exact (main_writes_only_after_evaluation (sample_ext sample_params) sample_dir Hchanged).
Defined.

Lemma save_metrics_dict_Ok_logs ext metrics file_path w u w' :
  save_metrics_dict ext metrics file_path w = (Ok u, w') ->
  console w' = console w /\ errors_log w' = errors_log w.
Proof.
  intros H. unfold save_metrics_dict in H. apply try_except_Ok in H; [|reraising].
  destruct (open_w_error ext file_path) as [e|] eqn:Hopen.
  - unfold bind, open_write in H. rewrite Hopen in H. discriminate.
  - rewrite (open_then_dump ext _ _ _ Hopen) in H. injection H as _ <-. auto.
Qed.

Lemma main_body_Ok_logs ext w u w' :
  main_body ext w = (Ok u, w') -> errors_log w' = errors_log w.
Proof.
  unfold main_body, logger_debug. intros H.
  apply bind_Ok in H as (clf & w1 & Hclf & H).
  apply read_and_parse_Ok_iff in Hclf as [-> _]; [|reraising | last_is_Exception].
  apply bind_Ok in H as (u1 & w2 & H1 & H). rewrite emit_logged in H1. injection H1 as _ <-.
  apply bind_Ok in H as (test_data & w3 & Htd & H).
  apply read_and_parse_Ok_iff in Htd as [-> _]; [|reraising | last_is_Exception].
  apply bind_Ok in H as (u2 & w4 & H2 & H). rewrite emit_logged in H2. injection H2 as _ <-.
  apply bind_Ok in H as (Y_test & w5 & HY & H).
  assert (w5 = logged DEBUG "Test Data loaded successfully"
                 (logged DEBUG "Saved model loaded successfully" w)) as ->.
  { unfold iloc_last in HY. destruct (ncols test_data); [discriminate|]. now injection HY. }
  apply bind_Ok in H as (m & w6 & Hm & H).
  apply evaluate_model_Ok_steps in Hm as (a & p & r & c & file & params & _ & _ & _ & Hlive).
  apply session_Ok_tracked in Hlive as (sections & _ & _ & ->).
  apply bind_Ok in H as (u3 & w7 & H3 & H). rewrite emit_logged in H3. injection H3 as _ <-.
  apply bind_Ok in H as (u4 & w8 & Hsave & H).
  apply save_metrics_dict_Ok_logs in Hsave as [_ Hlog].
  rewrite emit_logged in H. injection H as _ <-.
  rewrite logged_DEBUG. cbn [errors_log]. rewrite Hlog. reflexivity.
Qed.

(** X18. [errors.log] tells whether a run of [main] worked: it is unchanged
    after the run exactly when the statements inside [main]'s [try] all
    returned; any failure, in any stage, leaves at least one more record
    in it. *)
Theorem main_errors_log_unchanged_iff_success (ext : externals) (w : world) :
  errors_log (snd (main ext w)) = errors_log w <->
  exists w', main_body ext w = (Ok tt, w').
Proof.
  rewrite main_of_body. destruct (main_body ext w) as [[[]|e] w1] eqn:Hbody; cbn [snd].
  - split; [eauto | intros _]. now apply (main_body_Ok_logs ext w tt).
  - split; [|intros [w' [=]]].
    assert (Hgrow : logs_grow w w1).
    { assert (forall w0 w2, console w2 = console w0 -> errors_log w2 = errors_log w0 ->
                            logs_grow w0 w2) as Hsame.
      { intros w0 w2 Hc He. exists []. cbn. now rewrite !app_nil_r. }
      pose proof (respects_main_body ext logs_grow (fun _ => True)
                    logs_grow_refl logs_grow_trans logs_grow_logged
                    (fun evs w0 => Hsame w0 (track evs w0) eq_refl eq_refl)
                    (fun p c w0 _ => Hsame w0 (set_file p c w0) eq_refl eq_refl)
                    I w) as Hr.
      now rewrite Hbody in Hr. }
    destruct Hgrow as (recs & _ & He). rewrite logged_ERROR. cbn [errors_log].
    rewrite He. intros Heq. apply (f_equal length) in Heq.
    rewrite !length_app in Heq. cbn [length] in Heq. lia.
Qed.

Lemma main_errors_log_unchanged_iff_success_witness :
  errors_log (snd (main (sample_ext sample_params) empty_dir)) <> errors_log empty_dir /\
  ~ exists w', main_body (sample_ext sample_params) empty_dir = (Ok tt, w').
Proof.
  assert (errors_log (snd (main (sample_ext sample_params) empty_dir)) <> errors_log empty_dir)
    as Hlogged by (vm_compute; discriminate).
  split; [exact Hlogged|].
  intros Hok. apply Hlogged.
  exact (proj2 (main_errors_log_unchanged_iff_success (sample_ext sample_params) empty_dir) Hok).
Defined.
